(** * Singularity bot: command dispatch, points economy and event bus

    A shallow embedding of the bot engine of the repository:
    - [src/main/components/bot/extensions/points/component.js]
      (the points economy: pricing, affordability, the payout job),
    - [src/renderer/bot/index.js] (the [Core] class: [on], [runCommand]),
    - [src/app/bot/core.js] and [src/app/db.js] (the earlier engine).

    Asynchronous functions are embedded as functions on an explicit state:
    every store operation of one call is awaited before the next starts,
    and the reads joined by [Promise.all] do not write.  Numbers are the
    integers (columns and settings of the engine are integers). *)

From Stdlib Require Import ZArith Lia Bool Ascii.
From stdpp Require Import base option list strings gmap pretty.

Local Open Scope string_scope.
Local Open Scope Z_scope.

(** ** JavaScript values and the operators the engine applies to them *)

Module JS.

Inductive jsval :=
| JUndef
| JNull
| JBool (b : bool)
| JNum (z : Z)
| JStr (s : string).

(** Outcome of a call that may throw (or of a promise that may reject). *)
Inductive result (A : Type) :=
| Ok (a : A)
| Throw (e : string).
Arguments Ok {A} a.
Arguments Throw {A} e.

(** How an awaited call settles. *)
Inductive completion :=
| Resolved
| Rejected (e : string).

(** ToBoolean: what [if (v)], [!v] and [v || w] look at. *)
Definition truthy (v : jsval) : bool :=
  match v with
  | JUndef | JNull => false
  | JBool b => b
  | JNum z => negb (z =? 0)
  | JStr s => negb (String.eqb s "")
  end.

(** [a || b] *)
Definition js_or (a b : jsval) : jsval := if truthy a then a else b.

(** [a === b] *)
Definition strict_eq (a b : jsval) : bool :=
  match a, b with
  | JUndef, JUndef | JNull, JNull => true
  | JBool x, JBool y => Bool.eqb x y
  | JNum x, JNum y => x =? y
  | JStr x, JStr y => String.eqb x y
  | _, _ => false
  end.

Definition is_space (c : ascii) : bool :=
  let n := nat_of_ascii c in
  ((n =? 32) || (n =? 9) || (n =? 10) || (n =? 11) || (n =? 12) || (n =? 13))%nat.

Fixpoint skip_spaces (s : string) : string :=
  match s with
  | String c r => if is_space c then skip_spaces r else s
  | EmptyString => s
  end.

Definition digit_of (radix : Z) (c : ascii) : option Z :=
  let n := Z.of_nat (nat_of_ascii c) in
  let d :=
    if (48 <=? n) && (n <=? 57) then Some (n - 48)
    else if (97 <=? n) && (n <=? 122) then Some (n - 87)
    else if (65 <=? n) && (n <=? 90) then Some (n - 55)
    else None in
  match d with
  | Some k => if k <? radix then Some k else None
  | None => None
  end.

(** Longest prefix of digits of [s], read in [radix], from accumulator
    [acc]; [None] when [s] starts with no digit and [seen] is false. *)
Fixpoint read_digits (radix : Z) (s : string) (seen : bool) (acc : Z) : option Z * string :=
  match s with
  | String c r =>
      match digit_of radix c with
      | Some k => read_digits radix r true (acc * radix + k)
      | None => (if seen then Some acc else None, s)
      end
  | EmptyString => (if seen then Some acc else None, s)
  end.

Definition strip_sign (s : string) : bool * string :=
  match s with
  | String "-" r => (true, r)
  | String "+" r => (false, r)
  | _ => (false, s)
  end.

Definition strip_hex (s : string) : option string :=
  match s with
  | String "0" (String "x" r) | String "0" (String "X" r) => Some r
  | _ => None
  end.

Definition signed (neg : bool) (n : Z) : Z := if neg then - n else n.

(** [parseInt(text)] with no radix argument; [None] is NaN. *)
Definition parseInt_string (s : string) : option Z :=
  let '(neg, r) := strip_sign (skip_spaces s) in
  match strip_hex r with
  | Some h => signed neg <$> fst (read_digits 16 h false 0)
  | None => signed neg <$> fst (read_digits 10 r false 0)
  end.

Definition show_Z (z : Z) : string := pretty z.

(** ToString, as a template literal applies it. *)
Definition show (v : jsval) : string :=
  match v with
  | JUndef => "undefined"
  | JNull => "null"
  | JBool true => "true"
  | JBool false => "false"
  | JNum z => show_Z z
  | JStr s => s
  end.

(** [parseInt(v)]: the argument is converted to text first. *)
Definition parseInt (v : jsval) : option Z :=
  match v with
  | JNum z => Some z
  | JStr s => parseInt_string s
  | _ => None
  end.

(** ToNumber of a text holding an integer literal; any other text
    (fractions and exponents included, which the integer model does not
    hold) counts as NaN. *)
Definition number_of_string (s : string) : option Z :=
  let t := skip_spaces s in
  match t with
  | EmptyString => Some 0
  | _ =>
      match strip_hex t with
      | Some h =>
          match read_digits 16 h false 0 with
          | (Some n, rest) => if String.eqb (skip_spaces rest) "" then Some n else None
          | _ => None
          end
      | None =>
          let '(neg, r) := strip_sign t in
          match read_digits 10 r false 0 with
          | (Some n, rest) =>
              if String.eqb (skip_spaces rest) "" then Some (signed neg n) else None
          | _ => None
          end
      end
  end.

(** ToNumber; [None] is NaN. *)
Definition to_number (v : jsval) : option Z :=
  match v with
  | JUndef => None
  | JNull => Some 0
  | JBool b => Some (if b then 1 else 0)
  | JNum z => Some z
  | JStr s => number_of_string s
  end.

(** [a > b]: two texts compare as texts, anything else as numbers, and a
    comparison with NaN is false. *)
Definition js_gt (a b : jsval) : bool :=
  match a, b with
  | JStr s, JStr t => String.ltb t s
  | _, _ =>
      match to_number a, to_number b with
      | Some x, Some y => y <? x
      | _, _ => false
      end
  end.

(** [is.number] and [is.string] of the [is] helper on the core object. *)
Definition is_number (v : jsval) : bool :=
  match v with JNum _ => true | _ => false end.

Definition is_string (v : jsval) : bool :=
  match v with JStr _ => true | _ => false end.

(** [String.prototype.toLowerCase] on the ASCII letters; other code units
    are kept. *)
Definition lower_ascii (c : ascii) : ascii :=
  let n := nat_of_ascii c in
  if ((65 <=? n) && (n <=? 90))%nat then ascii_of_nat (n + 32) else c.

Fixpoint toLowerCase (s : string) : string :=
  match s with
  | String c r => String (lower_ascii c) (toLowerCase r)
  | EmptyString => EmptyString
  end.

(** [Array.prototype.includes] on an array of texts. *)
Definition includes (x : string) (l : list string) : bool :=
  existsb (String.eqb x) l.

End JS.
Export JS.

(** ** The persistent store *)

Abbreviation row := (gmap string jsval).
Abbreviation store := (gmap string (list row)).

Module Store.

(** Modelled from the spec: the store component ([common/components/db])
    is not part of the sources at hand; section 6 gives its interface:
    [get(table, column, whereEqualityMap)] yields the value or null,
    [getRow] the row, and [incr]/[decr] change a column of the matching
    rows in one atomic step.  A table is the list of its rows, a row maps
    column names to values, and a where-map is a list of (column, value)
    equalities. *)
Definition where_map : Type := list (string * jsval).

Definition holds (r : row) (c : string * jsval) : bool :=
  match r !! fst c with
  | Some x => strict_eq x (snd c)
  | None => false
  end.

Definition matches (cond : where_map) (r : row) : bool :=
  forallb (holds r) cond.

Definition rows (db : store) (t : string) : list row :=
  default [] (db !! t).

(** Modelled from the spec: [getRow(table, where)], the first row of the
    table that satisfies every equality of the where-map, if any. *)
Definition getRow (db : store) (t : string) (cond : where_map) : option row :=
  List.find (matches cond) (rows db t).

(** Modelled from the spec: [get(table, column, where)], the value of the
    column in that row, or null. *)
Definition get (db : store) (t column : string) (cond : where_map) : jsval :=
  match getRow db t cond with
  | Some r => default JNull (r !! column)
  | None => JNull
  end.

(** Modelled from the spec: the counter update of one row.  An integer
    cell moves by [delta]; a NaN delta ([None]) leaves no number behind,
    which the store holds as null; a cell that is no integer is not a
    counter and is kept. *)
Definition bump (column : string) (delta : option Z) (r : row) : row :=
  match r !! column with
  | Some (JNum n) =>
      <[column := match delta with Some d => JNum (n + d) | None => JNull end]> r
  | _ => r
  end.

Definition update_where (cond : where_map) (f : row -> row) (r : row) : row :=
  if matches cond r then f r else r.

(** Modelled from the spec: [incr(table, column, delta, where)], one
    atomic update of the column in every row that satisfies the where-map. *)
Definition incr (db : store) (t column : string) (delta : option Z) (cond : where_map)
  : store :=
  alter (List.map (update_where cond (bump column delta))) t db.

(** Modelled from the spec: [decr(table, column, delta, where)]. *)
Definition decr (db : store) (t column : string) (delta : option Z) (cond : where_map)
  : store :=
  incr db t column (Z.opp <$> delta) cond.

End Store.

(** ** The points economy ([extensions/points/component.js]) *)

Module Points.

(** The settings accessor [$.settings.get(key, default)]: the payout
    settings are written by [setPayoutAmount] and [setPayoutInterval]
    after [parseInt], the point names by [setPointName]. *)
Record settings := {
  numbers : gmap string Z;
  names : gmap string string
}.

(** The two entries of [$.cache] the payout job keeps between runs; an
    entry never set reads as the default given to [$.cache.get]. *)
Record cache := {
  lastPayout : option Z;
  lastUserList : option (list string)
}.

(** What one run of the job sees of the rest of the engine: [Date.now()],
    [$.stream.isLive], [$.user.list] and [$.channel.botName]. *)
Record surroundings := {
  now : Z;
  isLive : bool;
  userList : option (list string);
  botName : string
}.

(** The state the job works on. *)
Record state := {
  db : store;
  cfg : settings;
  mem : cache
}.

Definition by_name (name : string) : Store.where_map := [("name", JStr name)].

Definition add (user : string) (amount : jsval) (d : store) : store :=
  let inputAmount := parseInt amount in
  Store.incr d "users" "points" inputAmount (by_name user).

Definition sub (user : string) (amount : jsval) (d : store) : store :=
  let inputAmount := parseInt amount in
  Store.decr d "users" "points" inputAmount (by_name user).

Definition getPointName (singular : bool) (c : settings) : string :=
  if singular
  then default "point" (names c !! "pointName")
  else default "points" (names c !! "pointNamePlural").

Definition show_amount (a : option Z) : string :=
  match a with Some n => show_Z n | None => "NaN" end.

Definition makeString (amount : jsval) (c : settings) : string :=
  let inputAmount := parseInt amount in
  match inputAmount with
  | Some 1 => show_amount inputAmount +:+ " " +:+ getPointName true c
  | _ => show_amount inputAmount +:+ " " +:+ getPointName false c
  end.

Definition getUserPoints (user : string) (asString : bool) (c : settings) (d : store)
  : jsval :=
  if asString
  then JStr (makeString (Store.get d "users" "points" (by_name user)) c)
  else Store.get d "users" "points" (by_name user).

(** [sub] is the subcommand argument: absent ([None]) or a text. *)
Definition getCommandPrice (cmd : string) (sub : option string) (d : store) : jsval :=
  if negb (truthy (from_option JStr JUndef sub)) then
    Store.get d "commands" "price" (by_name cmd)
  else
    let res := Store.get d "subcommands" "price" (by_name cmd) in
    if strict_eq res (JNum (-1)) then
      Store.get d "commands" "price" (by_name cmd)
    else res.

Definition canAffordCommand (user command : string) (subcommand : option string)
    (c : settings) (d : store) : bool * jsval * jsval :=
  let price := getCommandPrice command subcommand d in
  let points := getUserPoints user false c d in
  (js_gt points price, points, price).

Definition getPayoutAmount (offline : bool) (c : settings) : Z :=
  if negb offline
  then default 6 (numbers c !! "pointsPayoutLive")
  else default (-1) (numbers c !! "pointsPayoutOffline").

Definition getPayoutInterval (offline : bool) (c : settings) : Z :=
  if negb offline
  then default 5 (numbers c !! "pointsIntervalLive")
  else default (-1) (numbers c !! "pointsIntervalOffline").

(** [$.is.number(stored) ? stored : 0] *)
Definition getRankBonus (rank : jsval) (d : store) : Z :=
  let storedRankBonus := Store.get d "ranks" "bonus" [("name", rank)] in
  match storedRankBonus with
  | JNum n => n
  | _ => 0
  end.

(** Reading an identifier that no scope declares throws. *)
Definition ReferenceError {A : Type} (identifier : string) : result A :=
  Throw ("ReferenceError: " +:+ identifier +:+ " is not defined").

(** The function declares [storedGroupBonus] and assigns it in both
    branches, but its last line reads [_storedGroupBonus], which neither
    the function nor the module declares. *)
Definition getGroupBonus (group : jsval) (d : store) : result Z :=
  if is_number group then
    let storedGroupBonus := Store.get d "groups" "bonus" [("level", group)] in
    ReferenceError "_storedGroupBonus"
  else if is_string group then
    let storedGroupBonus := Store.get d "groups" "bonus" [("name", group)] in
    ReferenceError "_storedGroupBonus"
  else Ok 0.

(** A property of a fetched row; a missing one reads as undefined. *)
Definition field (r : row) (k : string) : jsval :=
  default JUndef (r !! k).

(** [await getRankBonus(res.rank) || await getGroupBonus(res.permission)]:
    the right operand is evaluated only when the left one is zero. *)
Definition bonusOf (res : row) (d : store) : result Z :=
  let rankBonus := getRankBonus (field res "rank") d in
  if negb (rankBonus =? 0) then Ok rankBonus
  else getGroupBonus (field res "permission") d.

(** The callback given to [Promise.map], for one entry of the user list. *)
Definition payUser (botName : string) (lastUserList : list string) (payout : Z)
    (d : store) (user : string) : store * completion :=
  if String.eqb user botName then (d, Resolved)
  else if negb (includes user lastUserList) then (d, Resolved)
  else
    match Store.getRow d "users" (by_name user) with
    | None => (d, Resolved)
    | Some res =>
        match bonusOf res d with
        | Ok bonus =>
            (Store.incr d "users" "points" (Some (payout + bonus)) (by_name user),
             Resolved)
        | Throw e => (d, Rejected e)
        end
    end.

Definition first_rejection (a b : completion) : completion :=
  match a with
  | Rejected e => Rejected e
  | Resolved => b
  end.

(** [Promise.map(userList, callback)]: the callback is started for every
    entry, and the joint promise rejects when one of them does; the
    callbacks already started still run to their end.  Each callback
    writes with one atomic [incr] on the row of its own user and reads
    only columns no callback writes, so the interleaving of the callbacks
    does not show in the final store and they are run here in list
    order. *)
Fixpoint mapUsers (f : store -> string -> store * completion) (users : list string)
    (d : store) : store * completion :=
  match users with
  | [] => (d, Resolved)
  | user :: rest =>
      let '(d1, c1) := f d user in
      let '(d2, c2) := mapUsers f rest d1 in
      (d2, first_rejection c1 c2)
  end.

(** The branch on the stream state at the head of [run]: [None] is an
    early return, [Some payout] goes on to pay. *)
Definition due (e : surroundings) (s : state) : option Z :=
  let payout := 0 in
  let lastPayout := default 0 (lastPayout (mem s)) in
  let liveInt := getPayoutInterval false (cfg s) in
  let offInt := getPayoutInterval true (cfg s) in
  let liveAmt := getPayoutAmount false (cfg s) in
  let offAmt := getPayoutAmount true (cfg s) in
  let nextLivePayout := lastPayout + liveInt * 60 * 1000 in
  let nextOfflinePayout := lastPayout + offInt * 60 * 1000 in
  if isLive e then
    if (liveAmt >? 0) && (liveInt >? 0) then
      if nextLivePayout >=? now e then None else Some liveAmt
    else Some payout
  else
    if (offAmt >? 0) && (offInt >? 0) then
      if nextOfflinePayout >=? now e then None else Some offAmt
    else None.

Definition run (e : surroundings) (s : state) : state * completion :=
  match due e s with
  | None => (s, Resolved)
  | Some payout =>
      let userList := default [] (userList e) in
      let lastUserList := default [] (lastUserList (mem s)) in
      let '(d, c) := mapUsers (payUser (botName e) lastUserList payout) userList (db s) in
      match c with
      | Rejected err =>
          ({| db := d; cfg := cfg s; mem := mem s |}, Rejected err)
      | Resolved =>
          ({| db := d; cfg := cfg s;
              mem := {| lastPayout := Some (now e); lastUserList := Some userList |} |},
           Resolved)
      end
  end.

End Points.

(** ** The event bus of [Core] ([renderer/bot/index.js]) *)

Abbreviation bus := (gmap string (list nat)).

Module Emitter.

(** Modelled from the spec: [Core] extends the EventEmitter2 class, an
    external package; of it the engine uses [on] (append a listener to
    the channel), [off] (take one registration of the listener off the
    channel) and [emit] (call the listeners of the channel in the order
    they were added).  A listener is a function compared by identity,
    here a number.  [Core] builds the emitter with [wildcard: true]; this
    model is the bus of registrations under literal names: a bus maps a
    name to the listeners registered under exactly that name, and the
    matching of patterns such as [command:*] against other names (by
    [emit], and by [off] when it looks for the listener) is not part of
    it.  What is proved on it speaks of one listener and one name on a
    bus where that listener is registered under no pattern. *)
Definition listeners (b : bus) (channel : string) : list nat :=
  default [] (b !! channel).

Fixpoint remove_first (fn : nat) (l : list nat) : list nat :=
  match l with
  | [] => []
  | x :: r => if Nat.eqb x fn then r else x :: remove_first fn r
  end.

(** Modelled from the spec: [EventEmitter2.off(channel, fn)], on the
    registrations under that very name; it takes off registrations of
    [fn] only. *)
Definition off (b : bus) (channel : string) (fn : nat) : bus :=
  alter (remove_first fn) channel b.

(** Modelled from the spec: [EventEmitter2.on(channel, fn)], which
    [Core.on] reaches as [super.on]. *)
Definition super_on (b : bus) (channel : string) (fn : nat) : bus :=
  <[channel := (listeners b channel ++ [fn])%list]> b.

(** Modelled from the spec: [EventEmitter2.emit(channel)], as the calls
    the emission makes to the listeners registered under that very name,
    in order; listeners registered under a pattern that matches the name
    are not in this list. *)
Definition emit (b : bus) (channel : string) : list nat :=
  listeners b channel.

(** [Core.on (channel, fn, single = true)] *)
Definition on (b : bus) (channel : string) (fn : nat) (single : option bool) : bus :=
  let single := default true single in
  let b := if single then off b channel fn else b in
  super_on b channel fn.

(** How often an emission on [channel] calls [fn]. *)
Definition calls (b : bus) (channel : string) (fn : nat) : nat :=
  count_occ Nat.eq_dec (emit b channel) fn.

End Emitter.

(** ** The dispatcher ([Core.runCommand] in [renderer/bot/index.js]) *)

Module Dispatcher.

Inductive responder :=
| WhisperTo (user : string)
| SayTo (user : string).

(** The chat event, with the fields [runCommand] adds to it. *)
Record Event := {
  command : string;
  args : list string;
  sender : string;
  whispered : bool;
  groupID : Z;
  subcommand : option string;
  subArgs : option (list string);
  subArgString : option string;
  respond : option responder
}.

Inductive message :=
| Whisper (user text : string)
| Say (user text : string).

Inductive logline :=
| LogEvent (scope text : string)
| LogPlain (scope text : string)
| LogError (scope text : string).

(** One entry of the cooldown tracker. *)
Record cooldown := {
  cd_command : string;
  cd_subcommand : option string;
  cd_user : string;
  cd_at : Z
}.

(** Everything a dispatch can read or change: the store, the settings of
    the points extension, the cooldown records, and what left the engine
    (chat messages, emitted events, log lines), newest first. *)
Record World := {
  db : store;
  cfg : Points.settings;
  clock : Z;
  cooldowns : list cooldown;
  outbox : list message;
  emitted : list (string * Event);
  logs : list logline
}.

Definition set_db (d : store) (w : World) : World :=
  {| db := d; cfg := cfg w; clock := clock w; cooldowns := cooldowns w;
     outbox := outbox w; emitted := emitted w; logs := logs w |}.

Definition send (m : message) (w : World) : World :=
  {| db := db w; cfg := cfg w; clock := clock w; cooldowns := cooldowns w;
     outbox := m :: outbox w; emitted := emitted w; logs := logs w |}.

Definition log (l : logline) (w : World) : World :=
  {| db := db w; cfg := cfg w; clock := clock w; cooldowns := cooldowns w;
     outbox := outbox w; emitted := emitted w; logs := l :: logs w |}.

Definition emit (channel : string) (event : Event) (w : World) : World :=
  {| db := db w; cfg := cfg w; clock := clock w; cooldowns := cooldowns w;
     outbox := outbox w; emitted := (channel, event) :: emitted w; logs := logs w |}.

Definition same_key (c : string) (s : option string) (u : string) (r : cooldown) : bool :=
  String.eqb (cd_command r) c
  && bool_decide (cd_subcommand r = s)
  && String.eqb (cd_user r) u.

(** Modelled from the spec: the cooldown tracker is not part of the
    sources at hand; by section 4.3 [startCooldown] records now as the
    last invocation of the (command, subcommand, user) key and overwrites
    any earlier record of that key. *)
Definition startCooldown (c u : string) (s : option string) (w : World) : World :=
  {| db := db w; cfg := cfg w; clock := clock w;
     cooldowns :=
       {| cd_command := c; cd_subcommand := s; cd_user := u; cd_at := clock w |}
         :: List.filter (fun r => negb (same_key c s u r)) (cooldowns w);
     outbox := outbox w; emitted := emitted w; logs := logs w |}.

(** How the call of a handler ends at the call site, each time leaving
    the event and the world as the handler made them up to there.
    - [Returned]: a plain function returned.
    - [Threw]: a plain function threw an error object with the message
      [msg].
    - [ThrewValue]: a plain function threw a value that is no error
      object ([throw null], [throw "text"]).
    - [Promised]: the handler is an [async] function.  Its call runs the
      body up to the first suspension and returns a promise; whatever the
      body throws, at once or later, rejects that promise and is not
      thrown at the call site.  [outcome] is how the promise settles.
      [runCommand] neither awaits nor keeps the promise. *)
Inductive handled :=
| Returned (event : Event) (w : World)
| Threw (event : Event) (w : World) (msg : string)
| ThrewValue (event : Event) (w : World) (thrown : jsval)
| Promised (event : Event) (w : World) (outcome : completion).

(** The parts of the engine [runCommand] calls and whose code is not at
    hand: the registry facade ([this.command]), the extension settings
    ([this.db.getExtConfig]), the template renderer ([this.params]) and
    the handler found by [getRunner].  The lookups read the world and
    leave it as it is; [runner c] stands for the call
    [getRunner(c)(event, this)], a failing lookup of the handler
    included. *)
Record Engine := {
  getExtConfig : World -> string -> string -> bool -> bool;
  exists_ : World -> string -> option string -> bool;
  isEnabled : World -> string -> option string -> bool;
  getPermLevel : World -> string -> option string -> Z;
  isOnCooldown : World -> string -> string -> option string -> jsval;
  isCustom : World -> string -> bool;
  params : Event -> jsval -> result string;
  runner : string -> Event -> World -> handled
}.

(** What [getSubcommand] puts in its second result, to be merged into
    the event. *)
Record subEvent := {
  se_subcommand : string;
  se_subArgs : list string;
  se_subArgString : string
}.

(** [getSubcommand]: the lower-cased first argument when it names a
    subcommand of the command, with the fields to add to the event;
    otherwise undefined and the empty object. *)
Definition getSubcommand (E : Engine) (w : World) (event : Event)
  : option string * option subEvent :=
  match args event with
  | [] => (None, None)
  | query :: rest =>
      let cased := toLowerCase query in
      if negb (truthy (JStr query)) || negb (exists_ E w (command event) (Some cased))
      then (None, None)
      else
        let subArgs := rest in
        let subArgString := String.concat " " subArgs in
        (Some cased,
         Some {| se_subcommand := cased; se_subArgs := subArgs;
                 se_subArgString := subArgString |})
  end.

(** [Object.assign(event, subEvent)] *)
Definition assign (event : Event) (sub : option subEvent) : Event :=
  match sub with
  | Some f =>
      {| command := command event; args := args event; sender := sender event;
         whispered := whispered event; groupID := groupID event;
         subcommand := Some (se_subcommand f); subArgs := Some (se_subArgs f);
         subArgString := Some (se_subArgString f); respond := respond event |}
  | None => event
  end.

(** The first two lines of [runCommand]: the subcommand, and the event
    with the subcommand fields merged in when there is one. *)
Definition resolve (E : Engine) (w : World) (event : Event) : option string * Event :=
  let '(subcommand, subEvent) := getSubcommand E w event in
  (subcommand,
   if truthy (from_option JStr JUndef subcommand) then assign event subEvent else event).

Definition createResponder (event : Event) : responder :=
  if whispered event then WhisperTo (sender event) else SayTo (sender event).

Definition with_respond (event : Event) : Event :=
  {| command := command event; args := args event; sender := sender event;
     whispered := whispered event; groupID := groupID event;
     subcommand := subcommand event; subArgs := subArgs event;
     subArgString := subArgString event;
     respond := Some (createResponder event) |}.

Definition suffix (sep : string) (s : option string) : string :=
  match s with
  | Some x => if truthy (JStr x) then sep +:+ x else ""
  | None => ""
  end.

(** The last lines of [runCommand]: start the cooldown, debit the charge,
    fire the command event. *)
Definition commit (cooldownsEnabled pointsEnabled : bool) (charge : jsval)
    (c u : string) (s : option string) (event : Event) (w : World) : World :=
  let w := if cooldownsEnabled then startCooldown c u s w else w in
  let w := if pointsEnabled && truthy charge
           then set_db (Points.sub u charge (db w)) w else w in
  emit ("command:" +:+ c +:+ suffix ":" s) event w.

(** From "Add the respond helper" on: run the custom response or the
    handler, then commit. *)
Definition execute (E : Engine) (cooldownsEnabled pointsEnabled : bool) (charge : jsval)
    (s : option string) (event : Event) (w : World) : World * completion :=
  let c := command event in
  let u := sender event in
  let event := with_respond event in
  if isCustom E w c then
    let response :=
      Store.get (db w) "commands" "response" [("name", JStr c); ("module", JStr "custom")] in
    match params E event response with
    | Ok text =>
        (commit cooldownsEnabled pointsEnabled charge c u s event
           (send (Say (sender event) text) w), Resolved)
    | Throw e => (w, Rejected e)
    end
  else
    match runner E c event w with
    | Returned event w =>
        (commit cooldownsEnabled pointsEnabled charge c u s event w, Resolved)
    | Promised event w _ =>
        (commit cooldownsEnabled pointsEnabled charge c u s event w, Resolved)
    | Threw _ w msg => (log (LogError "core" msg) w, Resolved)
    | ThrewValue _ w thrown =>
        match thrown with
        | JNull | JUndef =>
            (w, Rejected ("TypeError: Cannot read property 'message' of " +:+ show thrown))
        | _ => (log (LogError "core" (show JUndef)) w, Resolved)
        end
    end.

(** From the affordability check on. *)
Definition afford (E : Engine) (cooldownsEnabled pointsEnabled : bool)
    (s : option string) (event : Event) (w : World) : World * completion :=
  let c := command event in
  let u := sender event in
  if pointsEnabled then
    let '(canAfford, userPoints, commandPrice) :=
      Points.canAffordCommand u c s (cfg w) (db w) in
    if negb canAfford then
      (send (Whisper u
               ("You don't have enough points to use !" +:+ c +:+ ". " +:+
                "» costs " +:+ show commandPrice +:+ ", you have " +:+ show userPoints))
         (log (LogPlain "core" (u +:+ " does not have enough points to use !" +:+ c +:+ "."))
            w),
       Resolved)
    else execute E cooldownsEnabled pointsEnabled commandPrice s event w
  else execute E cooldownsEnabled pointsEnabled (JNum 0) s event w.

(** From the permission check on. *)
Definition permit (E : Engine) (cooldownsEnabled pointsEnabled : bool)
    (commandPermission : Z) (s : option string) (event : Event) (w : World)
  : World * completion :=
  let c := command event in
  let u := sender event in
  if groupID event >? commandPermission then
    (send (Whisper u ("You don't have what it takes to use !" +:+ c +:+ "."))
       (log (LogEvent "core"
               (u +:+ " does not have sufficient permissions to use !" +:+ c))
          w),
     Resolved)
  else afford E cooldownsEnabled pointsEnabled s event w.

(** From the cooldown check on. *)
Definition cool (E : Engine) (cooldownsEnabled pointsEnabled : bool)
    (commandPermission : Z) (s : option string) (event : Event) (w : World)
  : World * completion :=
  let c := command event in
  let u := sender event in
  if cooldownsEnabled then
    let cooldownActive := isOnCooldown E w c u s in
    if truthy cooldownActive then
      (send (Whisper (sender event)
               ("You need to wait " +:+ show cooldownActive +:+ " seconds to use !" +:+ c
                +:+ " again."))
         (log (LogEvent "core"
                 ("'" +:+ c +:+ "' is on cooldown for " +:+ u +:+ " (" +:+
                  show cooldownActive +:+ " seconds)"))
            w),
       Resolved)
    else permit E cooldownsEnabled pointsEnabled commandPermission s event w
  else permit E cooldownsEnabled pointsEnabled commandPermission s event w.

Definition runCommand (E : Engine) (event : Event) (w : World) : World * completion :=
  let c := command event in
  let '(s, event) := resolve E w event in
  let pointsEnabled := getExtConfig E w "points" "enabled" true in
  let cooldownsEnabled := getExtConfig E w "cooldown" "enabled" true in
  let commandExists := exists_ E w c None in
  let commandIsEnabled := isEnabled E w c s in
  let commandPermission := getPermLevel E w c s in
  if negb commandExists then
    (log (LogEvent "core" ("'" +:+ c +:+ "' is not a registered command")) w, Resolved)
  else if negb commandIsEnabled then
    (log (LogEvent "core"
            ("'" +:+ c +:+ suffix " " s +:+ "' is installed but is not enabled"))
       w,
     Resolved)
  else cool E cooldownsEnabled pointsEnabled commandPermission s event w.

End Dispatcher.

(** ** The earlier engine ([app/bot/core.js], [app/db.js]) *)

Module Legacy.

Definition dquote : string := String "034"%char EmptyString.

Inductive logline :=
| LoggerBot (text : string)
| LoggerAbsurd (text : string)
| LoggerError (text : string).

Record LEvent := {
  command : string;
  args : list string;
  sender : string
}.

(** What the earlier engine keeps outside the stores: the log, and what
    the handlers did ([effects], opaque to the dispatcher). *)
Record LWorld := {
  logs : list logline;
  effects : list string
}.

Definition log (l : logline) (w : LWorld) : LWorld :=
  {| logs := l :: logs w; effects := effects w |}.

(** The stores and modules the earlier engine requires and whose code is
    not at hand: [botStore.get(sql)] answers a query text,
    [botDB.getValue(table, what, where)] reads one value, [registry] is
    the command registry object (command name to module and handler
    name), and [runner c] stands for the call
    [core.command.getRunner(c)(event)], which returns ([None]) or throws
    ([Some message]). *)
Record Backing := {
  botStore_get : string -> jsval;
  botDB_getValue : string -> string -> Store.where_map -> jsval;
  registry : gmap string (string * string);
  runner : string -> LEvent -> LWorld -> LWorld * option string
}.

(** [core.command.getCooldown] *)
Definition getCooldown (B : Backing) (cmd : string) : jsval :=
  js_or (botStore_get B ("SELECT cooldown FROM commands WHERE name=" +:+ dquote +:+ cmd
                         +:+ dquote))
        (JNum 30).

(** [core.command.getPermLevel] *)
Definition getPermLevel (B : Backing) (cmd : string) : jsval :=
  js_or (botStore_get B ("SELECT permission FROM commands WHERE name=" +:+ dquote +:+ cmd
                         +:+ dquote))
        (JNum 0).

(** [bot.getCommandStatus] of [db.js]: the stored status, turned into a
    boolean when it is truthy. *)
Definition getCommandStatus (B : Backing) (cmd : string) (w : LWorld) : jsval * LWorld :=
  let status := botDB_getValue B "commands" "status" [("name", JStr cmd)] in
  let status := if truthy status then JBool (strict_eq status (JStr "true")) else status in
  (status,
   log (LoggerAbsurd ("'" +:+ cmd +:+ "' is "
                      +:+ (if truthy status then "enabled" else "disabled") +:+ "."))
       w).

(** [core.command.isEnabled] *)
Definition isEnabled (B : Backing) (cmd : string) (w : LWorld) : jsval * LWorld :=
  getCommandStatus B cmd w.

(** [core.runCommand] *)
Definition runCommand (B : Backing) (event : LEvent) (w : LWorld) : LWorld :=
  if negb (bool_decide (is_Some (registry B !! command event))) then
    log (LoggerBot (command event +:+ " is not a registered command.")) w
  else
    let '(enabled, w) := isEnabled B (command event) w in
    if strict_eq enabled (JBool false) then
      log (LoggerBot (command event +:+ " is installed but is not enabled.")) w
    else
      match runner B (command event) event w with
      | (w, None) => w
      | (w, Some err) => log (LoggerError err) w
      end.

End Legacy.

(** ** Concrete stores, settings and engines used by the examples *)

Module Sample.

Definition user_row (name : string) (points rank permission : Z) : row :=
  list_to_map [("name", JStr name); ("points", JNum points);
               ("rank", JNum rank); ("permission", JNum permission)].

Definition command_row (name : string) (price : Z) : row :=
  list_to_map [("name", JStr name); ("price", JNum price); ("module", JStr "points")].

Definition subcommand_row (name parent : string) (price : Z) : row :=
  list_to_map [("name", JStr name); ("parent", JStr parent); ("price", JNum price);
               ("module", JStr "points")].

Definition rank_row (rank bonus : Z) : row :=
  list_to_map [("name", JNum rank); ("bonus", JNum bonus)].

Definition group_row (level bonus : Z) : row :=
  list_to_map [("level", JNum level); ("bonus", JNum bonus)].

Definition no_settings : Points.settings :=
  {| Points.numbers := ∅; Points.names := ∅ |}.

(** A shop: the command [points] costs 20 and its subcommand [add]
    costs 5; alice owns 20 points, bob 3. *)
Definition shop : store :=
  list_to_map
    [("users", [user_row "alice" 20 1 1; user_row "bob" 3 1 1]);
     ("commands", [command_row "points" 20]);
     ("subcommands", [subcommand_row "add" "points" 5])].

(** A channel: alice has rank 2, which carries a bonus of 3; bob and
    carol have rank 1, which carries none, and are in group 1, whose
    bonus is 4. *)
Definition town : store :=
  list_to_map
    [("users", [user_row "alice" 10 2 1; user_row "bob" 10 1 1;
                user_row "carol" 0 1 1; user_row "singularity" 0 1 0]);
     ("ranks", [rank_row 2 3]);
     ("groups", [group_row 1 4])].

Definition points_of (d : store) (user : string) : jsval :=
  Store.get d "users" "points" (Points.by_name user).

(** The stream is live and the live payout amount is set to 0. *)
Definition live_zero : Points.settings :=
  {| Points.numbers := {[ "pointsPayoutLive" := 0 ]}; Points.names := ∅ |}.

Definition live (time : Z) (users : list string) : Points.surroundings :=
  {| Points.now := time; Points.isLive := true;
     Points.userList := Some users; Points.botName := "singularity" |}.

Definition offline (time : Z) (users : list string) : Points.surroundings :=
  {| Points.now := time; Points.isLive := false;
     Points.userList := Some users; Points.botName := "singularity" |}.

Definition after_cycle (c : Points.settings) (users : list string) : Points.state :=
  {| Points.db := town; Points.cfg := c;
     Points.mem := {| Points.lastPayout := Some 0; Points.lastUserList := Some users |} |}.

(** An engine with the commands [points] (subcommand [add]), [boom],
    whose handler throws after answering, and [vip], which asks for
    level 0; nothing is on cooldown and no extension setting is stored. *)
Definition known (c : string) (s : option string) : bool :=
  match s with
  | None => String.eqb c "points" || String.eqb c "boom" || String.eqb c "vip"
  | Some x => String.eqb c "points" && String.eqb x "add"
  end.

Definition arcade : Dispatcher.Engine :=
  {| Dispatcher.getExtConfig := fun _ _ _ dflt => dflt;
     Dispatcher.exists_ := fun _ c s => known c s;
     Dispatcher.isEnabled := fun _ _ _ => true;
     Dispatcher.getPermLevel := fun _ c _ => if String.eqb c "vip" then 0 else 5;
     Dispatcher.isOnCooldown := fun _ _ _ _ => JBool false;
     Dispatcher.isCustom := fun _ _ => false;
     Dispatcher.params := fun _ v => Ok (show v);
     Dispatcher.runner := fun c event w =>
       if String.eqb c "boom"
       then Dispatcher.Threw event
              (Dispatcher.send (Dispatcher.Say (Dispatcher.sender event) "3, 2, 1...") w)
              "boom went off"
       else Dispatcher.Returned event
              (Dispatcher.send (Dispatcher.Say (Dispatcher.sender event) "done") w) |}.

Definition bazaar : store :=
  list_to_map
    [("users", [user_row "alice" 50 1 1]);
     ("commands", [command_row "points" 20; command_row "boom" 20;
                   command_row "vip" 0])].

Definition morning : Dispatcher.World :=
  {| Dispatcher.db := bazaar; Dispatcher.cfg := no_settings; Dispatcher.clock := 1000;
     Dispatcher.cooldowns := []; Dispatcher.outbox := []; Dispatcher.emitted := [];
     Dispatcher.logs := [] |}.

Definition chat (c : string) (a : list string) (u : string) (g : Z) : Dispatcher.Event :=
  {| Dispatcher.command := c; Dispatcher.args := a; Dispatcher.sender := u;
     Dispatcher.whispered := false; Dispatcher.groupID := g;
     Dispatcher.subcommand := None; Dispatcher.subArgs := None;
     Dispatcher.subArgString := None; Dispatcher.respond := None |}.

(** The earlier engine with one command, stored with cooldown 0. *)
Definition attic : Legacy.Backing :=
  {| Legacy.botStore_get := fun q =>
       if String.eqb q ("SELECT cooldown FROM commands WHERE name=" +:+ Legacy.dquote
                        +:+ "points" +:+ Legacy.dquote)
       then JNum 0 else JNull;
     Legacy.botDB_getValue := fun _ _ _ => JStr "true";
     Legacy.registry := {[ "points" := ("points", "run") ]};
     Legacy.runner := fun c _ w =>
       ({| Legacy.logs := Legacy.logs w; Legacy.effects := c :: Legacy.effects w |},
        None) |}.

Definition old_chat (c : string) : Legacy.LEvent :=
  {| Legacy.command := c; Legacy.args := []; Legacy.sender := "alice" |}.

Definition quiet : Legacy.LWorld := {| Legacy.logs := []; Legacy.effects := [] |}.

End Sample.

(** ** Engines that differ in one collaborator *)

Module Engines.

(** The engine [E] with another cooldown lookup. *)
Definition with_isOnCooldown
    (f : Dispatcher.World -> string -> string -> option string -> jsval)
    (E : Dispatcher.Engine) : Dispatcher.Engine :=
  {| Dispatcher.getExtConfig := Dispatcher.getExtConfig E;
     Dispatcher.exists_ := Dispatcher.exists_ E;
     Dispatcher.isEnabled := Dispatcher.isEnabled E;
     Dispatcher.getPermLevel := Dispatcher.getPermLevel E;
     Dispatcher.isOnCooldown := f;
     Dispatcher.isCustom := Dispatcher.isCustom E;
     Dispatcher.params := Dispatcher.params E;
     Dispatcher.runner := Dispatcher.runner E |}.

(** The engine [E] with other handlers. *)
Definition with_runner
    (g : string -> Dispatcher.Event -> Dispatcher.World -> Dispatcher.handled)
    (E : Dispatcher.Engine) : Dispatcher.Engine :=
  {| Dispatcher.getExtConfig := Dispatcher.getExtConfig E;
     Dispatcher.exists_ := Dispatcher.exists_ E;
     Dispatcher.isEnabled := Dispatcher.isEnabled E;
     Dispatcher.getPermLevel := Dispatcher.getPermLevel E;
     Dispatcher.isOnCooldown := Dispatcher.isOnCooldown E;
     Dispatcher.isCustom := Dispatcher.isCustom E;
     Dispatcher.params := Dispatcher.params E;
     Dispatcher.runner := g |}.

(** The conditions under which [runCommand] gets as far as running the
    command: [resolve] yields the subcommand [s] and the event [ev1], the
    command is registered, the (sub)command is enabled, it is not on
    cooldown (or cooldowns are switched off), the sender's group level is
    not greater than the permission level, and the sender can afford it
    (or the points extension is switched off). *)
Definition passes_checks (E : Dispatcher.Engine) (event ev1 : Dispatcher.Event)
    (w : Dispatcher.World) (s : option string) : Prop :=
  Dispatcher.resolve E w event = (s, ev1)
  /\ Dispatcher.exists_ E w (Dispatcher.command event) None = true
  /\ Dispatcher.isEnabled E w (Dispatcher.command event) s = true
  /\ (Dispatcher.getExtConfig E w "cooldown" "enabled" true = true ->
      truthy (Dispatcher.isOnCooldown E w (Dispatcher.command event)
                (Dispatcher.sender event) s) = false)
  /\ Dispatcher.groupID event <= Dispatcher.getPermLevel E w (Dispatcher.command event) s
  /\ (Dispatcher.getExtConfig E w "points" "enabled" true = true ->
      (Points.canAffordCommand (Dispatcher.sender event) (Dispatcher.command event) s
         (Dispatcher.cfg w) (Dispatcher.db w)).1.1 = true).

(** What the dispatch charges once the checks are passed: the resolved
    price, or 0 with the points extension switched off. *)
Definition charge_of (E : Dispatcher.Engine) (event : Dispatcher.Event)
    (w : Dispatcher.World) (s : option string) : jsval :=
  if Dispatcher.getExtConfig E w "points" "enabled" true
  then Points.getCommandPrice (Dispatcher.command event) s (Dispatcher.db w)
  else JNum 0.

End Engines.

(** ** The database helpers of the earlier engine ([app/db.js]) *)

Module Db.

(** An object given to [addTable] as a column: its [name], its [type]
    when it has that property, and whether it has a [unique] property. *)
Record column := {
  col_name : jsval;
  col_type : option jsval;
  col_unique : bool
}.

(** One of the rest arguments of [addTable]: a column name or an object. *)
Inductive key :=
| Name (s : string)
| Object (c : column).

Inductive target :=
| MainDb
| BotDb.

(** The four [query.push] of the object branch. *)
Definition render (c : column) : string :=
  if col_unique c then
    match col_type c with
    | None => show (col_name c) +:+ " TEXT UNIQUE"
    | Some t => show (col_name c) +:+ " " +:+ show t +:+ " UNIQUE"
    end
  else
    match col_type c with
    | None => show (col_name c) +:+ " TEXT"
    | Some t => show (col_name c) +:+ " " +:+ show t
    end.

(** A key inside a template literal. *)
Definition show_key (k : key) : string :=
  match k with
  | Name s => s
  | Object _ => "[object Object]"
  end.

(** The loop of [addTable] over its rest arguments, from the current
    value of the flag [unique]. *)
Fixpoint columns (unique : bool) (args : list key) : list string :=
  match args with
  | [] => []
  | k :: rest =>
      match k with
      | Object c =>
          if negb unique then render c :: columns true rest
          else (show_key k +:+ " TEXT") :: columns unique rest
      | Name _ => (show_key k +:+ " TEXT") :: columns unique rest
      end
  end.

(** [addTable(name, bot, ...args)]: the store that runs the statement,
    and the statement. *)
Definition addTable (name : string) (bot : jsval) (args : list key) : target * string :=
  let query := columns false args in
  let queryString := String.concat ", " query in
  (if negb (truthy bot) then MainDb else BotDb,
   "CREATE TABLE IF NOT EXISTS " +:+ name +:+ " (" +:+ queryString +:+ ");").

(** A value that may also be NaN, which [parseInt] can produce. *)
Inductive loose :=
| Val (v : jsval)
| NotANumber.

(** What [bot.setting.get] reads through: [botDB.getValue] of the store
    class and [util.isNumeric], whose code is not at hand. *)
Record Reader := {
  getValue : string -> string -> Store.where_map -> jsval;
  isNumeric : jsval -> bool
}.

(** [bot.setting.get(key)].  Reading [value.error] throws when the value
    is null or undefined and is undefined on every other value held here;
    a falsy value falls out of the function, which then answers
    undefined. *)
Definition setting_get (R : Reader) (key : string) : result loose :=
  let value := getValue R "settings" "value" [("key", JStr key)] in
  match value with
  | JNull | JUndef =>
      Throw ("TypeError: Cannot read property 'error' of " +:+ show value)
  | _ =>
      if truthy value then
        let value :=
          if strict_eq value (JStr "true") || strict_eq value (JStr "false")
          then JBool (strict_eq value (JStr "true")) else value in
        if isNumeric R value then
          Ok (match parseInt value with Some n => Val (JNum n) | None => NotANumber end)
        else Ok (Val value)
      else Ok (Val JUndef)
  end.

End Db.

(** ** Chat output of the earlier engine ([app/bot/core.js]) *)

Module Chat.

(** A call of the connector: [bot.say(channel, message)] or
    [bot.whisper(user, message)]. *)
Inductive sent :=
| ToChannel (channel message : string)
| ToUser (user message : string).

(** [core.settings.get] *)
Definition settings_get (R : Db.Reader) (key : string) : result Db.loose :=
  Db.setting_get R key.

(** [core.say(user, message)]; [message] is [None] when the call has one
    argument. *)
Definition say (R : Db.Reader) (channelName : string) (user : string)
    (message : option string) : result sent :=
  match message with
  | None =>
      let message := user in
      Ok (ToChannel channelName message)
  | Some message =>
      match settings_get R "whisperMode" with
      | Throw e => Throw e
      | Ok mode =>
          match mode with
          | Db.Val (JBool false) => Ok (ToChannel channelName message)
          | _ => Ok (ToUser user message)
          end
      end
  end.

(** [core.whisper] *)
Definition whisper (user message : string) : sent := ToUser user message.

(** [core.shout] *)
Definition shout (channelName message : string) : sent := ToChannel channelName message.

End Chat.

(** ** Further concrete stores and engines *)

Module Fixture.

Definition member (name : string) (points rank : Z) : row :=
  list_to_map [("name", JStr name); ("points", JNum points);
               ("rank", JNum rank); ("permission", JNum 1)].

Definition priced (name : string) (price : Z) : row :=
  list_to_map [("name", JStr name); ("price", JNum price); ("module", JStr "games")].

Definition custom (name response : string) : row :=
  list_to_map [("name", JStr name); ("price", JNum 0); ("module", JStr "custom");
               ("response", JStr response)].

(** alice owns 50 points and bob 3, both of rank 2, whose bonus is 3;
    carol owns none and has rank 1, which has no bonus; [gift] has a
    negative price and [hello] is a custom command. *)
Definition vault : store :=
  list_to_map
    [("users", [member "alice" 50 2; member "bob" 3 2; member "carol" 0 1]);
     ("commands", [priced "points" 20; priced "gift" (-5); priced "free" 0;
                   priced "slow" 0; priced "closed" 0; priced "boom" 20;
                   custom "hello" "Join us"]);
     ("ranks", [list_to_map [("name", JNum 2); ("bonus", JNum 3)]])].

Definition balance (d : store) (user : string) : jsval :=
  Store.get d "users" "points" (Points.by_name user).

Definition plain : Points.settings :=
  {| Points.numbers := ∅; Points.names := ∅ |}.

(** The job's view of a live stream at [time] with the users [users]. *)
Definition on_air (time : Z) (users : list string) : Points.surroundings :=
  {| Points.now := time; Points.isLive := true;
     Points.userList := Some users; Points.botName := "singularity" |}.

Definition off_air (time : Z) (users : list string) : Points.surroundings :=
  {| Points.now := time; Points.isLive := false;
     Points.userList := Some users; Points.botName := "singularity" |}.

(** The state left by a cycle at time [last] that listed [users]. *)
Definition since (last : Z) (users : list string) : Points.state :=
  {| Points.db := vault; Points.cfg := plain;
     Points.mem := {| Points.lastPayout := Some last; Points.lastUserList := Some users |} |}.

Definition lobby : Dispatcher.World :=
  {| Dispatcher.db := vault; Dispatcher.cfg := plain; Dispatcher.clock := 5000;
     Dispatcher.cooldowns := []; Dispatcher.outbox := []; Dispatcher.emitted := [];
     Dispatcher.logs := [] |}.

Definition chat (c : string) (a : list string) (u : string) (g : Z) : Dispatcher.Event :=
  {| Dispatcher.command := c; Dispatcher.args := a; Dispatcher.sender := u;
     Dispatcher.whispered := false; Dispatcher.groupID := g;
     Dispatcher.subcommand := None; Dispatcher.subArgs := None;
     Dispatcher.subArgString := None; Dispatcher.respond := None |}.

Definition listed (c : string) : bool :=
  existsb (String.eqb c) ["points"; "gift"; "free"; "slow"; "closed"; "boom"; "hello"].

(** An engine over these commands: [closed] is disabled, [slow] is on
    cooldown for 7 seconds, [hello] is custom, the handler of [boom]
    throws and every other handler answers; the two extension switches
    are the arguments. *)
Definition house (pointsOn cooldownsOn : bool) : Dispatcher.Engine :=
  {| Dispatcher.getExtConfig := fun _ ext _ _ =>
       if String.eqb ext "points" then pointsOn else cooldownsOn;
     Dispatcher.exists_ := fun _ c s =>
       match s with
       | None => listed c
       | Some x => String.eqb c "points" && String.eqb x "add"
       end;
     Dispatcher.isEnabled := fun _ c _ => negb (String.eqb c "closed");
     Dispatcher.getPermLevel := fun _ _ _ => 5;
     Dispatcher.isOnCooldown := fun _ c _ _ =>
       if String.eqb c "slow" then JNum 7 else JBool false;
     Dispatcher.isCustom := fun _ c => String.eqb c "hello";
     Dispatcher.params := fun _ v =>
       match v with
       | JStr text => Ok text
       | _ => Throw "TypeError: template is not a string"
       end;
     Dispatcher.runner := fun c event w =>
       if String.eqb c "boom"
       then Dispatcher.Threw event w "boom went off"
       else Dispatcher.Returned event
              (Dispatcher.send (Dispatcher.Say (Dispatcher.sender event) "done") w) |}.

(** The earlier engine with three registered commands: [closed] is stored
    with status false, [fresh] has no stored status, and the handler of
    [boom] throws. *)
Definition cellar : Legacy.Backing :=
  {| Legacy.botStore_get := fun _ => JNull;
     Legacy.botDB_getValue := fun _ _ cond =>
       match cond with
       | [(_, JStr "closed")] => JStr "false"
       | [(_, JStr "fresh")] => JNull
       | _ => JStr "true"
       end;
     Legacy.registry :=
       list_to_map [("closed", ("games", "closed")); ("fresh", ("games", "fresh"));
                    ("boom", ("games", "boom"))];
     Legacy.runner := fun c _ w =>
       ({| Legacy.logs := Legacy.logs w; Legacy.effects := c :: Legacy.effects w |},
        if String.eqb c "boom" then Some "boom went off" else None) |}.

(** The house with every handler written as an [async] function that
    answers before its first suspension; the promise of [boom] rejects,
    the others resolve. *)
Definition async_house : Dispatcher.Engine :=
  Engines.with_runner
    (fun c event w =>
       Dispatcher.Promised event
         (Dispatcher.send (Dispatcher.Say (Dispatcher.sender event) "3, 2, 1...") w)
         (if String.eqb c "boom" then Rejected "boom went off" else Resolved))
    (house true true).

(** The earlier engine over a store whose [cooldown] column is text:
    the cooldown of [points] reads as the text 0. *)
Definition ledger : Legacy.Backing :=
  {| Legacy.botStore_get := fun q =>
       if String.eqb q ("SELECT cooldown FROM commands WHERE name=" +:+ Legacy.dquote
                        +:+ "points" +:+ Legacy.dquote)
       then JStr "0" else JNull;
     Legacy.botDB_getValue := fun _ _ _ => JStr "true";
     Legacy.registry := {[ "points" := ("points", "run") ]};
     Legacy.runner := fun _ _ w => (w, None) |}.

Definition call (c : string) : Legacy.LEvent :=
  {| Legacy.command := c; Legacy.args := []; Legacy.sender := "alice" |}.

Definition silence : Legacy.LWorld := {| Legacy.logs := []; Legacy.effects := [] |}.

(** A settings table where [whisperMode] is stored as the text given. *)
Definition reader (whisperMode : jsval) : Db.Reader :=
  {| Db.getValue := fun _ _ cond =>
       match cond with
       | [(_, JStr "whisperMode")] => whisperMode
       | [(_, JStr "defaultCooldown")] => JStr "30"
       | _ => JNull
       end;
     Db.isNumeric := fun v =>
       match v with
       | JNum _ => true
       | JStr s => bool_decide (is_Some (number_of_string s)) && negb (String.eqb s "")
       | _ => false
       end |}.

End Fixture.

(** * Properties *)

(** Closed statements about the sample runs are settled by evaluation. *)
Ltac evaluate := vm_compute; repeat (split; [reflexivity|]); reflexivity.


(** ** Affordability and pricing *)

Lemma js_gt_numbers (p q : Z) : js_gt (JNum p) (JNum q) = bool_decide (p > q).
Proof.
  unfold js_gt; simpl. destruct (Z.ltb_spec q p); symmetry.
  - apply bool_decide_eq_true. lia.
  - apply bool_decide_eq_false. lia.
Qed.

(** Whatever the store holds, the triple carries the fetched balance and
    the resolved price as they were read, and the flag is their [>]. *)
Lemma canAffordCommand_triple (user command : string) (subcommand : option string)
    (c : Points.settings) (d : store) :
  Points.canAffordCommand user command subcommand c d
  = (js_gt (Points.getUserPoints user false c d)
           (Points.getCommandPrice command subcommand d),
     Points.getUserPoints user false c d,
     Points.getCommandPrice command subcommand d).
Proof. reflexivity. Qed.

(** C1: with balance [p] and resolved price [q], [canAffordCommand] answers
    affordable exactly when [p > q] (so not when [p = q]), and returns the
    balance and the price it fetched unchanged. *)
Theorem canAffordCommand_strictly_greater
    (user command : string) (subcommand : option string)
    (c : Points.settings) (d : store) (p q : Z)
    (Hpoints : Points.getUserPoints user false c d = JNum p)
    (Hprice : Points.getCommandPrice command subcommand d = JNum q) :
  Points.canAffordCommand user command subcommand c d = (bool_decide (p > q), JNum p, JNum q)
  /\ ((Points.canAffordCommand user command subcommand c d).1.1 = true <-> p > q)
  /\ (p = q -> (Points.canAffordCommand user command subcommand c d).1.1 = false).
Proof.
  rewrite canAffordCommand_triple, Hpoints, Hprice, js_gt_numbers. simpl.
  split; [reflexivity|]. split.
  - apply bool_decide_eq_true.
  - intros ->. apply bool_decide_eq_false. lia.
Qed.

(** alice owns exactly the 20 points the command costs. *)
Lemma canAffordCommand_strictly_greater_witness :
  Points.getUserPoints "alice" false Sample.no_settings Sample.shop = JNum 20
  /\ Points.getCommandPrice "points" None Sample.shop = JNum 20
  /\ Points.canAffordCommand "alice" "points" None Sample.no_settings Sample.shop
     = (false, JNum 20, JNum 20).
Proof.
  assert (Hpoints : Points.getUserPoints "alice" false Sample.no_settings Sample.shop
                    = JNum 20) by (vm_compute; reflexivity).
  assert (Hprice : Points.getCommandPrice "points" None Sample.shop = JNum 20)
    by (vm_compute; reflexivity).
  split; [exact Hpoints|]. split; [exact Hprice|].
  destruct (canAffordCommand_strictly_greater "alice" "points" None
              Sample.no_settings Sample.shop 20 20 Hpoints Hprice) as [H _].
  rewrite H. reflexivity.
Defined.

(** With a subcommand given, the price is read from the row of the
    [subcommands] table named like the command; the name of the subcommand
    takes no part in the lookup. *)
Lemma getCommandPrice_subcommand (cmd sub : string) (d : store) :
  sub <> "" ->
  Points.getCommandPrice cmd (Some sub) d
  = let res := Store.get d "subcommands" "price" [("name", JStr cmd)] in
    if strict_eq res (JNum (-1)) then Store.get d "commands" "price" [("name", JStr cmd)]
    else res.
Proof.
  intros Hsub. unfold Points.getCommandPrice. simpl.
  destruct (String.eqb_spec sub ""); [contradiction|]. reflexivity.
Qed.

Lemma getCommandPrice_same_for_all_subcommands (cmd s1 s2 : string) (d : store) :
  s1 <> "" -> s2 <> "" ->
  Points.getCommandPrice cmd (Some s1) d = Points.getCommandPrice cmd (Some s2) d.
Proof.
  intros H1 H2. rewrite !getCommandPrice_subcommand by assumption. reflexivity.
Qed.

Lemma getCommandPrice_no_subcommand (cmd : string) (d : store) :
  Points.getCommandPrice cmd None d = Store.get d "commands" "price" [("name", JStr cmd)].
Proof. reflexivity. Qed.

(** C3: in the shop the subcommand [add] of [points] is stored with price
    5, yet the price resolved for it is null: the lookup in [subcommands]
    asks for a row named [points].  bob, with 3 points, is then told he can
    afford it. *)
Theorem getCommandPrice_subcommand_row_not_read :
  Store.get Sample.shop "subcommands" "price" [("name", JStr "add")] = JNum 5
  /\ Points.getCommandPrice "points" (Some "add") Sample.shop = JNull
  /\ Points.canAffordCommand "bob" "points" (Some "add") Sample.no_settings Sample.shop
     = (true, JNum 3, JNull).
Proof. evaluate. Qed.

(** ** The accessor of the earlier engine *)

Lemma js_or_falsy (a b : jsval) : truthy a = false -> js_or a b = b.
Proof. unfold js_or. intros ->. reflexivity. Qed.

Lemma getCooldown_query (B : Legacy.Backing) (cmd : string) :
  Legacy.getCooldown B cmd
  = js_or (Legacy.botStore_get B
             ("SELECT cooldown FROM commands WHERE name=" +:+ Legacy.dquote +:+ cmd
              +:+ Legacy.dquote))
          (JNum 30).
Proof. reflexivity. Qed.

(** C10, as stated, fails on a store that reads the cooldown back as
    text: the text 0 is truthy, so [getCooldown] answers it unchanged, not
    30, and a cooldown of zero seconds is observed. *)
Lemma getCooldown_text_zero_is_returned :
  Legacy.botStore_get Fixture.ledger
    ("SELECT cooldown FROM commands WHERE name=" +:+ Legacy.dquote +:+ "points"
     +:+ Legacy.dquote) = JStr "0"
  /\ Legacy.getCooldown Fixture.ledger "points" = JStr "0"
  /\ Legacy.getCooldown Fixture.ledger "points" <> JNum 30
  /\ to_number (Legacy.getCooldown Fixture.ledger "points") = Some 0.
Proof.
  assert (Hget : Legacy.getCooldown Fixture.ledger "points" = JStr "0")
    by (vm_compute; reflexivity).
  split; [vm_compute; reflexivity|]. split; [exact Hget|].
  rewrite Hget. split; [discriminate|reflexivity].
Qed.

(** C10: when the cooldown of a command reads as a falsy value (the
    number 0, the empty text, false, null or undefined), [getCooldown]
    answers the default 30.  Whatever the store holds the answer is
    truthy, so never the number 0, and a cooldown that reads as a truthy
    value, the text 0 included, is answered unchanged. *)
Theorem getCooldown_replaces_falsy_by_30 (B : Legacy.Backing) (cmd : string)
    (Hfalsy : truthy (Legacy.botStore_get B
                        ("SELECT cooldown FROM commands WHERE name=" +:+ Legacy.dquote
                         +:+ cmd +:+ Legacy.dquote)) = false) :
  Legacy.getCooldown B cmd = JNum 30
  /\ (forall (B' : Legacy.Backing) (cmd' : string),
        truthy (Legacy.getCooldown B' cmd') = true)
  /\ (forall (B' : Legacy.Backing) (cmd' : string), Legacy.getCooldown B' cmd' <> JNum 0)
  /\ (forall (B' : Legacy.Backing) (cmd' : string),
        truthy (Legacy.botStore_get B'
                  ("SELECT cooldown FROM commands WHERE name=" +:+ Legacy.dquote
                   +:+ cmd' +:+ Legacy.dquote)) = true ->
        Legacy.getCooldown B' cmd'
        = Legacy.botStore_get B'
            ("SELECT cooldown FROM commands WHERE name=" +:+ Legacy.dquote
             +:+ cmd' +:+ Legacy.dquote)).
Proof.
  assert (Htruthy : forall (B' : Legacy.Backing) (cmd' : string),
             truthy (Legacy.getCooldown B' cmd') = true).
  { intros B' cmd'. rewrite getCooldown_query. unfold js_or.
    destruct (truthy (Legacy.botStore_get B' _)) eqn:Ht; [exact Ht|reflexivity]. }
  split; [rewrite getCooldown_query; apply js_or_falsy; exact Hfalsy|].
  split; [exact Htruthy|]. split.
  - intros B' cmd' Hzero. specialize (Htruthy B' cmd').
    rewrite Hzero in Htruthy. discriminate.
  - intros B' cmd' Ht. rewrite getCooldown_query. unfold js_or. rewrite Ht. reflexivity.
Qed.

(** The one command of the attic is stored with the number 0. *)
Lemma getCooldown_replaces_falsy_by_30_witness :
  truthy (Legacy.botStore_get Sample.attic
            ("SELECT cooldown FROM commands WHERE name=" +:+ Legacy.dquote +:+ "points"
             +:+ Legacy.dquote)) = false
  /\ Legacy.getCooldown Sample.attic "points" = JNum 30.
Proof.
  assert (Hfalsy : truthy (Legacy.botStore_get Sample.attic
                             ("SELECT cooldown FROM commands WHERE name=" +:+ Legacy.dquote
                              +:+ "points" +:+ Legacy.dquote)) = false)
    by (vm_compute; reflexivity).
  split; [exact Hfalsy|].
  exact (proj1 (getCooldown_replaces_falsy_by_30 Sample.attic "points" Hfalsy)).
Defined.

(** ** The store: what a counter update leaves alone *)

Section StoreFrame.

Variables (column : string) (delta : option Z).

Lemma rows_incr (d : store) (t : string) (cond : Store.where_map) :
  Store.rows (Store.incr d t column delta cond) t
  = List.map (Store.update_where cond (Store.bump column delta)) (Store.rows d t).
Proof.
  unfold Store.rows, Store.incr. rewrite lookup_alter_eq.
  destruct (d !! t); reflexivity.
Qed.

Lemma holds_bump (r : row) (k : string) (v : jsval) :
  k <> column ->
  Store.holds (Store.bump column delta r) (k, v) = Store.holds r (k, v).
Proof.
  intros Hk. unfold Store.holds, Store.bump. simpl.
  destruct (r !! column) as [[| | |n|]|] eqn:Hc; try reflexivity.
  rewrite lookup_insert_ne by congruence. reflexivity.
Qed.

Lemma matches_one (r : row) (k : string) (v : jsval) :
  Store.matches [(k, v)] r = Store.holds r (k, v).
Proof. unfold Store.matches. simpl. apply andb_true_r. Qed.

Lemma holds_name_unique (r : row) (k a b : string) :
  a <> b -> Store.holds r (k, JStr a) = true -> Store.holds r (k, JStr b) = false.
Proof.
  unfold Store.holds. simpl. intros Hab.
  destruct (r !! k) as [[| | | |x]|]; simpl; try discriminate.
  intros Ha. apply String.eqb_eq in Ha. subst x.
  apply String.eqb_neq. exact Hab.
Qed.

Lemma find_map_frame {A : Type} (P : A -> bool) (f : A -> A) (l : list A) :
  (forall x, P (f x) = P x) ->
  (forall x, P x = true -> f x = x) ->
  List.find P (List.map f l) = List.find P l.
Proof.
  intros Hkeep Hid. induction l as [|x l IH]; simpl; [reflexivity|].
  rewrite Hkeep. destruct (P x) eqn:HP.
  - rewrite (Hid x HP). reflexivity.
  - exact IH.
Qed.

(** A counter update on the rows named [user] does not show in the row
    found under another name. *)
Lemma getRow_incr_other (d : store) (t key user other : string) :
  key <> column -> other <> user ->
  Store.getRow (Store.incr d t column delta [(key, JStr user)]) t [(key, JStr other)]
  = Store.getRow d t [(key, JStr other)].
Proof.
  intros Hkey Hne. unfold Store.getRow. rewrite rows_incr.
  apply find_map_frame.
  - intros r. unfold Store.update_where.
    destruct (Store.matches [(key, JStr user)] r); [|reflexivity].
    rewrite !matches_one. apply holds_bump. exact Hkey.
  - intros r Hr. unfold Store.update_where.
    rewrite matches_one in Hr. rewrite matches_one.
    rewrite (holds_name_unique r key other user Hne Hr). reflexivity.
Qed.

End StoreFrame.

(** ** The payout job *)

Section Payout.

Variables (bot : string) (last : list string) (payout : Z).

Lemma payUser_bot (d : store) : Points.payUser bot last payout d bot = (d, Resolved).
Proof. unfold Points.payUser. rewrite String.eqb_refl. reflexivity. Qed.

Lemma payUser_newcomer (d : store) (user : string) :
  includes user last = false -> Points.payUser bot last payout d user = (d, Resolved).
Proof.
  intros Hnew. unfold Points.payUser. rewrite Hnew.
  destruct (String.eqb user bot); reflexivity.
Qed.

(** The callback for one user leaves the balance of every other user. *)
Lemma payUser_other (c : Points.settings) (d : store) (user other : string) :
  other <> user ->
  Points.getUserPoints other false c (Points.payUser bot last payout d user).1
  = Points.getUserPoints other false c d.
Proof.
  intros Hne. unfold Points.payUser.
  destruct (String.eqb user bot); [reflexivity|].
  destruct (negb (includes user last)); [reflexivity|].
  destruct (Store.getRow d "users" (Points.by_name user)); [|reflexivity].
  destruct (Points.bonusOf _ d); [|reflexivity].
  simpl. unfold Store.get, Points.by_name.
  rewrite getRow_incr_other; [reflexivity|discriminate|exact Hne].
Qed.

Lemma mapUsers_cons (f : store -> string -> store * completion) (user : string)
    (rest : list string) (d : store) :
  Points.mapUsers f (user :: rest) d
  = ((Points.mapUsers f rest (f d user).1).1,
     Points.first_rejection (f d user).2 (Points.mapUsers f rest (f d user).1).2).
Proof.
  simpl. destruct (f d user) as [d1 c1]. simpl.
  destruct (Points.mapUsers f rest d1) as [d2 c2]. reflexivity.
Qed.

(** Neither the bot nor a user missing from the previous list is paid by
    the iteration, whoever else is in the list and whatever fails. *)
Lemma mapUsers_skips (c : Points.settings) (users : list string) (d : store) (u : string) :
  u = bot \/ includes u last = false ->
  Points.getUserPoints u false c (Points.mapUsers (Points.payUser bot last payout) users d).1
  = Points.getUserPoints u false c d.
Proof.
  intros Hu. revert d. induction users as [|user rest IH]; intros d; [reflexivity|].
  rewrite mapUsers_cons. cbn [fst]. rewrite IH.
  destruct (String.eqb_spec u user) as [<-|Hne].
  - destruct Hu as [->|Hnew].
    + rewrite payUser_bot. reflexivity.
    + rewrite (payUser_newcomer d u Hnew). reflexivity.
  - apply payUser_other. exact Hne.
Qed.

End Payout.

Lemma run_unfold (e : Points.surroundings) (s : Points.state) (payout : Z) :
  Points.due e s = Some payout ->
  Points.run e s
  = let users := default [] (Points.userList e) in
    let r := Points.mapUsers
               (Points.payUser (Points.botName e)
                  (default [] (Points.lastUserList (Points.mem s))) payout)
               users (Points.db s) in
    match r.2 with
    | Rejected err =>
        ({| Points.db := r.1; Points.cfg := Points.cfg s; Points.mem := Points.mem s |},
         Rejected err)
    | Resolved =>
        ({| Points.db := r.1; Points.cfg := Points.cfg s;
            Points.mem := {| Points.lastPayout := Some (Points.now e);
                             Points.lastUserList := Some users |} |},
         Resolved)
    end.
Proof.
  intros Hdue. unfold Points.run. rewrite Hdue. simpl.
  destruct (Points.mapUsers _ _ _) as [d c]. reflexivity.
Qed.

(** In every run, due or not, completed or failed, the balance of the bot
    and of every user missing from the previous list stays as it was. *)
Lemma run_skips_bot_and_newcomers (e : Points.surroundings) (s : Points.state)
    (c : Points.settings) (u : string) :
  u = Points.botName e
  \/ includes u (default [] (Points.lastUserList (Points.mem s))) = false ->
  Points.getUserPoints u false c (Points.db (Points.run e s).1)
  = Points.getUserPoints u false c (Points.db s).
Proof.
  intros Hu. destruct (Points.due e s) as [payout|] eqn:Hdue.
  - rewrite (run_unfold e s payout Hdue). cbv zeta.
    destruct (Points.mapUsers _ _ _).2 eqn:Hc; cbn [fst Points.db];
      apply mapUsers_skips; exact Hu.
  - unfold Points.run. rewrite Hdue. reflexivity.
Qed.

(** A due run that completes replaces the remembered list by the current
    one and moves the payout time to now. *)
Lemma run_completed_updates_cache (e : Points.surroundings) (s : Points.state) (payout : Z) :
  Points.due e s = Some payout ->
  (Points.run e s).2 = Resolved ->
  Points.mem (Points.run e s).1
  = {| Points.lastPayout := Some (Points.now e);
       Points.lastUserList := Some (default [] (Points.userList e)) |}.
Proof.
  intros Hdue. rewrite (run_unfold e s payout Hdue). cbv zeta.
  destruct (Points.mapUsers _ _ _).2; cbn [fst snd Points.mem]; [reflexivity|discriminate].
Qed.

(** A run that fails keeps both. *)
Lemma run_failed_keeps_cache (e : Points.surroundings) (s : Points.state) (err : string) :
  (Points.run e s).2 = Rejected err ->
  Points.mem (Points.run e s).1 = Points.mem s.
Proof.
  destruct (Points.due e s) as [payout|] eqn:Hdue.
  - rewrite (run_unfold e s payout Hdue). cbv zeta.
    destruct (Points.mapUsers _ _ _).2; cbn [fst snd Points.mem]; [discriminate|reflexivity].
  - unfold Points.run. rewrite Hdue. reflexivity.
Qed.

(** Offline, a non-positive amount or interval skips the run. *)
Lemma run_offline_skipped (e : Points.surroundings) (s : Points.state) :
  Points.isLive e = false ->
  Points.getPayoutAmount true (Points.cfg s) <= 0
  \/ Points.getPayoutInterval true (Points.cfg s) <= 0 ->
  Points.run e s = (s, Resolved).
Proof.
  intros Hoff Hnp. unfold Points.run, Points.due. rewrite Hoff.
  replace ((Points.getPayoutAmount true (Points.cfg s) >? 0)
           && (Points.getPayoutInterval true (Points.cfg s) >? 0)) with false;
    [reflexivity|].
  symmetry. apply andb_false_iff.
  destruct Hnp; [left|right]; rewrite Z.gtb_ltb; apply Z.ltb_ge; lia.
Qed.

(** Live, a non-positive amount or interval does not: the run goes on
    with a base payout of 0. *)
Lemma due_live_nonpositive (e : Points.surroundings) (s : Points.state) :
  Points.isLive e = true ->
  Points.getPayoutAmount false (Points.cfg s) <= 0
  \/ Points.getPayoutInterval false (Points.cfg s) <= 0 ->
  Points.due e s = Some 0.
Proof.
  intros Hlive Hnp. unfold Points.due. rewrite Hlive.
  replace ((Points.getPayoutAmount false (Points.cfg s) >? 0)
           && (Points.getPayoutInterval false (Points.cfg s) >? 0)) with false;
    [reflexivity|].
  symmetry. apply andb_false_iff.
  destruct Hnp; [left|right]; rewrite Z.gtb_ltb; apply Z.ltb_ge; lia.
Qed.

(** C2: the stream is live and the live payout amount is 0, so the amount
    of the active branch is non-positive; the run is not skipped: it pays
    alice her rank bonus on a base of 0 and rewrites both cache entries.
    Offline, the same settings skip the run ([run_offline_skipped]). *)
Theorem run_live_nonpositive_still_pays :
  let e := Sample.live 1000000 ["alice"] in
  let s := Sample.after_cycle Sample.live_zero ["bob"; "alice"] in
  Points.getPayoutAmount false (Points.cfg s) = 0
  /\ Points.due e s = Some 0
  /\ (Points.run e s).2 = Resolved
  /\ Sample.points_of (Points.db s) "alice" = JNum 10
  /\ Sample.points_of (Points.db (Points.run e s).1) "alice" = JNum 13
  /\ Points.mem s
     = {| Points.lastPayout := Some 0; Points.lastUserList := Some ["bob"; "alice"] |}
  /\ Points.mem (Points.run e s).1
     = {| Points.lastPayout := Some 1000000; Points.lastUserList := Some ["alice"] |}.
Proof. evaluate. Qed.

(** ** The bonus on top of the base payout *)

(** A rank bonus other than 0 is the bonus; the group bonus is not read. *)
Lemma bonusOf_rank_first (res : row) (d : store) :
  Points.getRankBonus (Points.field res "rank") d <> 0 ->
  Points.bonusOf res d = Ok (Points.getRankBonus (Points.field res "rank") d).
Proof.
  intros Hrank. unfold Points.bonusOf.
  destruct (Z.eqb_spec (Points.getRankBonus (Points.field res "rank") d) 0);
    [contradiction|reflexivity].
Qed.

(** With no rank bonus, the fallback for a user whose permission group is
    a number or a text throws, whatever the [groups] table holds. *)
Lemma bonusOf_fallback_throws (res : row) (d : store) :
  Points.getRankBonus (Points.field res "rank") d = 0 ->
  is_number (Points.field res "permission") || is_string (Points.field res "permission")
  = true ->
  Points.bonusOf res d = Points.ReferenceError "_storedGroupBonus".
Proof.
  intros Hrank Hgroup. unfold Points.bonusOf, Points.getGroupBonus.
  rewrite Hrank. simpl.
  destruct (is_number _); [reflexivity|].
  destruct (is_string _); [reflexivity|discriminate].
Qed.

(** C7: bob has no rank bonus and is in group 1, whose stored bonus is 4.
    With a base payout of 6 he is owed 10 points; the fallback throws
    instead, and bob is paid nothing. *)
Theorem group_bonus_fallback_throws :
  let bob := Sample.user_row "bob" 10 1 1 in
  Points.field bob "permission" = JNum 1
  /\ Points.getRankBonus (Points.field bob "rank") Sample.town = 0
  /\ Store.get Sample.town "groups" "bonus" [("level", Points.field bob "permission")]
     = JNum 4
  /\ Points.getGroupBonus (Points.field bob "permission") Sample.town
     = Throw "ReferenceError: _storedGroupBonus is not defined"
  /\ Points.bonusOf bob Sample.town
     = Throw "ReferenceError: _storedGroupBonus is not defined"
  /\ (Points.payUser "singularity" ["bob"] 6 Sample.town "bob").2
     = Rejected "ReferenceError: _storedGroupBonus is not defined"
  /\ Sample.points_of (Points.payUser "singularity" ["bob"] 6 Sample.town "bob").1 "bob"
     = JNum 10.
Proof. evaluate. Qed.

(** C6: carol joins while bob is already listed.  The cycle is due, pays
    carol nothing, and fails on bob's group bonus: the remembered list and
    the payout time stay as they were, so in the next cycle carol is still
    missing from the list and is again paid nothing. *)
Theorem failed_cycle_keeps_newcomer_waiting :
  let users := ["bob"; "carol"] in
  let s0 := Sample.after_cycle Sample.no_settings ["bob"] in
  let r1 := Points.run (Sample.live 1000000 users) s0 in
  let r2 := Points.run (Sample.live 2000000 users) r1.1 in
  Points.due (Sample.live 1000000 users) s0 = Some 6
  /\ r1.2 = Rejected "ReferenceError: _storedGroupBonus is not defined"
  /\ Points.mem r1.1
     = {| Points.lastPayout := Some 0; Points.lastUserList := Some ["bob"] |}
  /\ Points.due (Sample.live 2000000 users) r1.1 = Some 6
  /\ r2.2 = Rejected "ReferenceError: _storedGroupBonus is not defined"
  /\ Sample.points_of (Points.db r2.1) "carol" = JNum 0
  /\ Points.mem r2.1
     = {| Points.lastPayout := Some 0; Points.lastUserList := Some ["bob"] |}.
Proof. evaluate. Qed.

(** ** The event bus *)

Section Bus.

Import Emitter.

Lemma count_remove_first (fn : nat) (l : list nat) :
  count_occ Nat.eq_dec (remove_first fn l) fn = Nat.pred (count_occ Nat.eq_dec l fn).
Proof.
  induction l as [|x l IH]; [reflexivity|]. simpl.
  destruct (Nat.eqb_spec x fn) as [->|Hne].
  - destruct (Nat.eq_dec fn fn); [reflexivity|contradiction].
  - simpl. destruct (Nat.eq_dec x fn); [contradiction|exact IH].
Qed.

Lemma listeners_off (b : bus) (channel : string) (fn : nat) :
  listeners (off b channel fn) channel = remove_first fn (listeners b channel).
Proof.
  unfold listeners, off. rewrite lookup_alter_eq.
  destruct (b !! channel); reflexivity.
Qed.

Lemma listeners_super_on (b : bus) (channel : string) (fn : nat) :
  listeners (super_on b channel fn) channel = (listeners b channel ++ [fn])%list.
Proof. unfold listeners at 1, super_on. rewrite lookup_insert_eq. reflexivity. Qed.

(** One [on] with the default [single]: the listener is taken off once
    and appended once. *)
Lemma listeners_on (b : bus) (channel : string) (fn : nat) :
  listeners (on b channel fn None) channel
  = (remove_first fn (listeners b channel) ++ [fn])%list.
Proof. unfold on. simpl. rewrite listeners_super_on, listeners_off. reflexivity. Qed.

Lemma count_on (b : bus) (channel : string) (fn : nat) :
  count_occ Nat.eq_dec (listeners (on b channel fn None) channel) fn
  = S (Nat.pred (count_occ Nat.eq_dec (listeners b channel) fn)).
Proof.
  rewrite listeners_on, count_occ_app, count_remove_first. simpl.
  destruct (Nat.eq_dec fn fn); [lia|contradiction].
Qed.

End Bus.

(** C9: on a bus where [fn] is not yet listening on [channel], or is
    listening once, two [on] with the default arguments leave [fn]
    registered exactly once, and an emission on [channel] calls it exactly
    once. *)
Theorem on_twice_registers_once (b : bus) (channel : string) (fn : nat)
    (Hfresh : (count_occ Nat.eq_dec (Emitter.listeners b channel) fn <= 1)%nat) :
  let b2 := Emitter.on (Emitter.on b channel fn None) channel fn None in
  count_occ Nat.eq_dec (Emitter.listeners b2 channel) fn = 1%nat
  /\ Emitter.calls b2 channel fn = 1%nat.
Proof.
  cbv zeta. unfold Emitter.calls, Emitter.emit.
  rewrite !count_on. split; lia.
Qed.

Lemma on_twice_registers_once_witness :
  (count_occ Nat.eq_dec (Emitter.listeners (∅ : bus) "command:points") 7 <= 1)%nat
  /\ Emitter.emit (Emitter.on (Emitter.on ∅ "command:points" 7 None)
                     "command:points" 7 None) "command:points" = [7%nat]
  /\ Emitter.calls (Emitter.on (Emitter.on ∅ "command:points" 7 None)
                      "command:points" 7 None) "command:points" 7 = 1%nat.
Proof.
  assert (H : (count_occ Nat.eq_dec (Emitter.listeners (∅ : bus) "command:points") 7
               <= 1)%nat) by (vm_compute; lia).
  split; [exact H|]. split; [vm_compute; reflexivity|].
  exact (proj2 (on_twice_registers_once ∅ "command:points" 7 H)).
Defined.

(** ** The dispatcher *)

Section Dispatch.

Import Dispatcher.

Variable E : Engine.

(** Merging the subcommand fields keeps who sent what. *)
Lemma resolve_keeps (w : World) (event ev1 : Event) (s : option string) :
  resolve E w event = (s, ev1) ->
  command ev1 = command event /\ sender ev1 = sender event
  /\ groupID ev1 = groupID event /\ whispered ev1 = whispered event.
Proof.
  unfold resolve. destruct (getSubcommand E w event) as [sub fields].
  intros Heq. injection Heq as _ <-.
  destruct (truthy _); [|repeat split].
  destruct fields; repeat split.
Qed.

Lemma runCommand_unregistered (w : World) (event : Event) :
  exists_ E w (command event) None = false ->
  runCommand E event w
  = (log (LogEvent "core" ("'" +:+ command event +:+ "' is not a registered command")) w,
     Resolved).
Proof.
  intros Hno. unfold runCommand. destruct (resolve E w event) as [s ev1].
  rewrite Hno. reflexivity.
Qed.

(** A registered, enabled command that is not on cooldown reaches the
    permission check. *)
Lemma runCommand_reaches_permit (w : World) (event ev1 : Event) (s : option string) :
  resolve E w event = (s, ev1) ->
  exists_ E w (command event) None = true ->
  isEnabled E w (command event) s = true ->
  (getExtConfig E w "cooldown" "enabled" true = true ->
   truthy (isOnCooldown E w (command event) (sender event) s) = false) ->
  runCommand E event w
  = permit E (getExtConfig E w "cooldown" "enabled" true)
      (getExtConfig E w "points" "enabled" true)
      (getPermLevel E w (command event) s) s ev1 w.
Proof.
  intros Hres Hex Hen Hcool. unfold runCommand. rewrite Hres, Hex, Hen. simpl.
  destruct (resolve_keeps w event ev1 s Hres) as (Hc & Hu & _).
  unfold cool. rewrite Hc, Hu.
  destruct (getExtConfig E w "cooldown" "enabled" true); [|reflexivity].
  rewrite (Hcool eq_refl). reflexivity.
Qed.

Lemma permit_refuses (ce pe : bool) (perm : Z) (s : option string) (ev : Event) (w : World) :
  groupID ev > perm ->
  permit E ce pe perm s ev w
  = (send (Whisper (sender ev)
             ("You don't have what it takes to use !" +:+ command ev +:+ "."))
       (log (LogEvent "core"
               (sender ev +:+ " does not have sufficient permissions to use !"
                +:+ command ev))
          w),
     Resolved).
Proof.
  intros Hgt. unfold permit.
  destruct (Z.gtb_spec (groupID ev) perm); [reflexivity|lia].
Qed.

Lemma permit_passes (ce pe : bool) (perm : Z) (s : option string) (ev : Event) (w : World) :
  groupID ev <= perm ->
  permit E ce pe perm s ev w = afford E ce pe s ev w.
Proof.
  intros Hle. unfold permit.
  destruct (Z.gtb_spec (groupID ev) perm); [lia|reflexivity].
Qed.

(** A sender who can pay (or an economy switched off) reaches the
    execution, charged the resolved price (or nothing). *)
Lemma afford_passes (ce pe : bool) (s : option string) (ev : Event) (w : World) :
  (pe = true ->
   (Points.canAffordCommand (sender ev) (command ev) s (cfg w) (db w)).1.1 = true) ->
  afford E ce pe s ev w
  = execute E ce pe
      (if pe then Points.getCommandPrice (command ev) s (db w) else JNum 0) s ev w.
Proof.
  intros Hpay. unfold afford. destruct pe; [|reflexivity].
  specialize (Hpay eq_refl). rewrite canAffordCommand_triple in Hpay |- *.
  cbn [fst] in Hpay. cbv beta iota. rewrite Hpay. reflexivity.
Qed.

Lemma execute_handler_throws (ce pe : bool) (charge : jsval) (s : option string)
    (ev ev' : Event) (w w' : World) (msg : string) :
  isCustom E w (command ev) = false ->
  runner E (command ev) (with_respond ev) w = Threw ev' w' msg ->
  execute E ce pe charge s ev w = (log (LogError "core" msg) w', Resolved).
Proof.
  intros Hcode Hthrow. unfold execute. rewrite Hcode, Hthrow. reflexivity.
Qed.

End Dispatch.

(** A full dispatch: alice (50 points, level 1) runs [points], which
    costs 20 and asks for level 5.  The handler answers, the cooldown
    starts, 20 points are debited and the command event is emitted. *)
Example dispatch_points :
  let r := Dispatcher.runCommand Sample.arcade (Sample.chat "points" [] "alice" 1)
             Sample.morning in
  r.2 = Resolved
  /\ Dispatcher.outbox r.1 = [Dispatcher.Say "alice" "done"]
  /\ Sample.points_of (Dispatcher.db r.1) "alice" = JNum 30
  /\ List.map Dispatcher.cd_user (Dispatcher.cooldowns r.1) = ["alice"]
  /\ List.map fst (Dispatcher.emitted r.1) = ["command:points"].
Proof. evaluate. Qed.

(** The first argument names a subcommand in any letter case. *)
Example dispatch_points_add :
  let event := Sample.chat "points" ["ADD"; "bob"; "5"] "alice" 1 in
  (Dispatcher.resolve Sample.arcade Sample.morning event).1 = Some "add"
  /\ Dispatcher.subArgString (Dispatcher.resolve Sample.arcade Sample.morning event).2
     = Some "bob 5"
  /\ List.map fst (Dispatcher.emitted
                     (Dispatcher.runCommand Sample.arcade event Sample.morning).1)
     = ["command:points:add"].
Proof. evaluate. Qed.

(** C5: an event naming a command that is not registered ends with one
    log line: the store, the cooldown records, the outbox and the
    emitted events are as before.  The same holds of [runCommand] of the
    earlier engine, which logs and does not call a handler. *)
Theorem runCommand_unregistered_is_silent
    (E : Dispatcher.Engine) (event : Dispatcher.Event) (w : Dispatcher.World)
    (B : Legacy.Backing) (old_event : Legacy.LEvent) (old_w : Legacy.LWorld)
    (Hnew : Dispatcher.exists_ E w (Dispatcher.command event) None = false)
    (Hold : Legacy.registry B !! Legacy.command old_event = None) :
  let r := Dispatcher.runCommand E event w in
  r = (Dispatcher.log
         (Dispatcher.LogEvent "core"
            ("'" +:+ Dispatcher.command event +:+ "' is not a registered command")) w,
       Resolved)
  /\ Dispatcher.db r.1 = Dispatcher.db w
  /\ Dispatcher.cooldowns r.1 = Dispatcher.cooldowns w
  /\ Dispatcher.outbox r.1 = Dispatcher.outbox w
  /\ Dispatcher.emitted r.1 = Dispatcher.emitted w
  /\ Legacy.runCommand B old_event old_w
     = Legacy.log
         (Legacy.LoggerBot (Legacy.command old_event +:+ " is not a registered command."))
         old_w
  /\ Legacy.effects (Legacy.runCommand B old_event old_w) = Legacy.effects old_w.
Proof.
  cbv zeta. rewrite (runCommand_unregistered E w event Hnew).
  assert (Hlegacy : Legacy.runCommand B old_event old_w
                    = Legacy.log
                        (Legacy.LoggerBot
                           (Legacy.command old_event +:+ " is not a registered command."))
                        old_w).
  { unfold Legacy.runCommand. rewrite Hold.
    rewrite bool_decide_eq_false_2; [reflexivity|]. intros [x Hx]. discriminate. }
  rewrite Hlegacy. repeat split.
Qed.

Lemma runCommand_unregistered_is_silent_witness :
  Dispatcher.exists_ Sample.arcade Sample.morning "nope" None = false
  /\ Legacy.registry Sample.attic !! "nope" = None
  /\ Dispatcher.outbox
       (Dispatcher.runCommand Sample.arcade (Sample.chat "nope" [] "alice" 1)
          Sample.morning).1 = []
  /\ Legacy.effects (Legacy.runCommand Sample.attic (Sample.old_chat "nope") Sample.quiet)
     = [].
Proof.
  assert (Hnew : Dispatcher.exists_ Sample.arcade Sample.morning
                   (Dispatcher.command (Sample.chat "nope" [] "alice" 1)) None = false)
    by (vm_compute; reflexivity).
  assert (Hold : Legacy.registry Sample.attic !! Legacy.command (Sample.old_chat "nope")
                 = None) by (vm_compute; reflexivity).
  split; [exact Hnew|]. split; [exact Hold|].
  destruct (runCommand_unregistered_is_silent Sample.arcade
              (Sample.chat "nope" [] "alice" 1) Sample.morning
              Sample.attic (Sample.old_chat "nope") Sample.quiet Hnew Hold)
    as (_ & _ & _ & Hout & _ & _ & Heff).
  split; [exact Hout | exact Heff].
Defined.

(** C8: for an event that passed the existence, enablement and cooldown
    checks, [runCommand] ends with a notice to the sender, and with the
    store, the cooldown records and the emitted events untouched, when
    the group level of the sender is greater than the permission level of
    the resolved (sub)command; when it is not, the dispatch is the
    affordability check and what follows it. *)
Theorem runCommand_permission_gate
    (E : Dispatcher.Engine) (event ev1 : Dispatcher.Event) (w : Dispatcher.World)
    (s : option string)
    (Hres : Dispatcher.resolve E w event = (s, ev1))
    (Hexists : Dispatcher.exists_ E w (Dispatcher.command event) None = true)
    (Henabled : Dispatcher.isEnabled E w (Dispatcher.command event) s = true)
    (Hcool : Dispatcher.getExtConfig E w "cooldown" "enabled" true = true ->
             truthy (Dispatcher.isOnCooldown E w (Dispatcher.command event)
                       (Dispatcher.sender event) s) = false) :
  let level := Dispatcher.getPermLevel E w (Dispatcher.command event) s in
  let r := Dispatcher.runCommand E event w in
  (Dispatcher.groupID event > level ->
   r = (Dispatcher.send
          (Dispatcher.Whisper (Dispatcher.sender event)
             ("You don't have what it takes to use !" +:+ Dispatcher.command event +:+ "."))
          (Dispatcher.log
             (Dispatcher.LogEvent "core"
                (Dispatcher.sender event +:+ " does not have sufficient permissions to use !"
                 +:+ Dispatcher.command event))
             w),
        Resolved)
   /\ Dispatcher.db r.1 = Dispatcher.db w
   /\ Dispatcher.cooldowns r.1 = Dispatcher.cooldowns w
   /\ Dispatcher.emitted r.1 = Dispatcher.emitted w)
  /\ (Dispatcher.groupID event <= level ->
      r = Dispatcher.afford E (Dispatcher.getExtConfig E w "cooldown" "enabled" true)
            (Dispatcher.getExtConfig E w "points" "enabled" true) s ev1 w).
Proof.
  cbv zeta. rewrite (runCommand_reaches_permit E w event ev1 s Hres Hexists Henabled Hcool).
  destruct (resolve_keeps E w event ev1 s Hres) as (Hc & Hu & Hg & _).
  split.
  - intros Hgt. rewrite permit_refuses by (rewrite Hg; exact Hgt).
    rewrite Hc, Hu. repeat split.
  - intros Hle. apply permit_passes. rewrite Hg. exact Hle.
Qed.

Lemma runCommand_permission_gate_witness :
  let event := Sample.chat "vip" [] "alice" 1 in
  Dispatcher.resolve Sample.arcade Sample.morning event = (None, event)
  /\ Dispatcher.getPermLevel Sample.arcade Sample.morning "vip" None = 0
  /\ Dispatcher.outbox (Dispatcher.runCommand Sample.arcade event Sample.morning).1
     = [Dispatcher.Whisper "alice" "You don't have what it takes to use !vip."]
  /\ Dispatcher.emitted (Dispatcher.runCommand Sample.arcade event Sample.morning).1 = [].
Proof.
  cbv zeta.
  assert (Hres : Dispatcher.resolve Sample.arcade Sample.morning
                   (Sample.chat "vip" [] "alice" 1)
                 = (None, Sample.chat "vip" [] "alice" 1)) by reflexivity.
  split; [exact Hres|]. split; [reflexivity|].
  destruct (runCommand_permission_gate Sample.arcade (Sample.chat "vip" [] "alice" 1)
              (Sample.chat "vip" [] "alice" 1) Sample.morning None Hres
              eq_refl eq_refl (fun _ => eq_refl)) as [Hrefuse _].
  destruct Hrefuse as (Hr & _ & _ & Hemit); [vm_compute; reflexivity|].
  rewrite Hr. split; [reflexivity|]. rewrite Hr in Hemit. exact Hemit.
Defined.

(** A handler that throws an error object at the call site (a plain
    function): when the dispatch reaches the handler of a command that
    is not custom and the call throws, [runCommand] logs the message and
    resolves: it adds one error line to the log of the world the handler
    left, and the store (no debit), the cooldown records (no cooldown
    started), the emitted events (no completion event) and the outbox are
    those the handler left. *)
Theorem runCommand_handler_throw_commits_nothing
    (E : Dispatcher.Engine) (event ev1 ev' : Dispatcher.Event) (w w' : Dispatcher.World)
    (s : option string) (msg : string)
    (Hres : Dispatcher.resolve E w event = (s, ev1))
    (Hexists : Dispatcher.exists_ E w (Dispatcher.command event) None = true)
    (Henabled : Dispatcher.isEnabled E w (Dispatcher.command event) s = true)
    (Hcool : Dispatcher.getExtConfig E w "cooldown" "enabled" true = true ->
             truthy (Dispatcher.isOnCooldown E w (Dispatcher.command event)
                       (Dispatcher.sender event) s) = false)
    (Hlevel : Dispatcher.groupID event
              <= Dispatcher.getPermLevel E w (Dispatcher.command event) s)
    (Hpay : Dispatcher.getExtConfig E w "points" "enabled" true = true ->
            (Points.canAffordCommand (Dispatcher.sender event) (Dispatcher.command event) s
               (Dispatcher.cfg w) (Dispatcher.db w)).1.1 = true)
    (Hcode : Dispatcher.isCustom E w (Dispatcher.command event) = false)
    (Hthrow : Dispatcher.runner E (Dispatcher.command event) (Dispatcher.with_respond ev1) w
              = Dispatcher.Threw ev' w' msg) :
  let r := Dispatcher.runCommand E event w in
  r = (Dispatcher.log (Dispatcher.LogError "core" msg) w', Resolved)
  /\ r.2 = Resolved
  /\ Dispatcher.logs r.1 = Dispatcher.LogError "core" msg :: Dispatcher.logs w'
  /\ Dispatcher.db r.1 = Dispatcher.db w'
  /\ Dispatcher.cooldowns r.1 = Dispatcher.cooldowns w'
  /\ Dispatcher.emitted r.1 = Dispatcher.emitted w'
  /\ Dispatcher.outbox r.1 = Dispatcher.outbox w'.
Proof.
  cbv zeta. rewrite (runCommand_reaches_permit E w event ev1 s Hres Hexists Henabled Hcool).
  destruct (resolve_keeps E w event ev1 s Hres) as (Hc & Hu & Hg & _).
  rewrite permit_passes by (rewrite Hg; exact Hlevel).
  rewrite afford_passes by (rewrite Hc, Hu; exact Hpay).
  rewrite (execute_handler_throws E _ _ _ s ev1 ev' w w' msg)
    by (rewrite Hc; assumption).
  repeat split.
Qed.

Lemma runCommand_handler_throw_commits_nothing_witness :
  let event := Sample.chat "boom" [] "alice" 1 in
  let r := Dispatcher.runCommand Sample.arcade event Sample.morning in
  Dispatcher.resolve Sample.arcade Sample.morning event = (None, event)
  /\ (Points.canAffordCommand "alice" "boom" None Sample.no_settings Sample.bazaar).1.1 = true
  /\ r.2 = Resolved
  /\ Dispatcher.logs r.1 = [Dispatcher.LogError "core" "boom went off"]
  /\ Sample.points_of (Dispatcher.db r.1) "alice" = JNum 50
  /\ Dispatcher.cooldowns r.1 = []
  /\ Dispatcher.emitted r.1 = [].
Proof.
  cbv zeta.
  assert (Hres : Dispatcher.resolve Sample.arcade Sample.morning
                   (Sample.chat "boom" [] "alice" 1)
                 = (None, Sample.chat "boom" [] "alice" 1)) by reflexivity.
  assert (Hpay : (Points.canAffordCommand "alice" "boom" None Sample.no_settings
                    Sample.bazaar).1.1 = true) by (vm_compute; reflexivity).
  split; [exact Hres|]. split; [exact Hpay|].
  destruct (runCommand_handler_throw_commits_nothing Sample.arcade
              (Sample.chat "boom" [] "alice" 1) (Sample.chat "boom" [] "alice" 1)
              (Dispatcher.with_respond (Sample.chat "boom" [] "alice" 1))
              Sample.morning
              (Dispatcher.send (Dispatcher.Say "alice" "3, 2, 1...") Sample.morning)
              None "boom went off" Hres eq_refl eq_refl (fun _ => eq_refl)
              ltac:(vm_compute; discriminate) (fun _ => Hpay) eq_refl eq_refl)
    as (_ & Hdone & Hlogs & Hdb & Hcd & Hemit & _).
  split; [exact Hdone|]. split; [exact Hlogs|].
  split; [rewrite Hdb; vm_compute; reflexivity|].
  split; [exact Hcd | exact Hemit].
Defined.


(** * Further properties *)

(** ** The store: what a counter update changes *)

Section StoreUpdate.

Variables (column : string) (delta : option Z).

Lemma find_map_through {A : Type} (P : A -> bool) (f g : A -> A) (l : list A) :
  (forall x, P (f x) = P x) ->
  (forall x, P x = true -> f x = g x) ->
  List.find P (List.map f l) = g <$> List.find P l.
Proof.
  intros Hkeep Hon. induction l as [|x l IH]; simpl; [reflexivity|].
  rewrite Hkeep. destruct (P x) eqn:HP; [|exact IH].
  simpl. rewrite (Hon x HP). reflexivity.
Qed.

(** The row found under the name that was updated is the updated row. *)
Lemma getRow_incr_same (d : store) (t k user : string) :
  k <> column ->
  Store.getRow (Store.incr d t column delta [(k, JStr user)]) t [(k, JStr user)]
  = Store.bump column delta <$> Store.getRow d t [(k, JStr user)].
Proof.
  intros Hk. unfold Store.getRow. rewrite rows_incr.
  apply find_map_through.
  - intros x. unfold Store.update_where.
    destruct (Store.matches [(k, JStr user)] x) eqn:Hm; [|exact Hm].
    rewrite matches_one in Hm |- *. rewrite holds_bump by exact Hk. exact Hm.
  - intros x Hx. unfold Store.update_where. rewrite Hx. reflexivity.
Qed.

Lemma rows_incr_elsewhere (d : store) (t t' : string) (cond : Store.where_map) :
  t' <> t ->
  Store.rows (Store.incr d t column delta cond) t' = Store.rows d t'.
Proof.
  intros Hne. unfold Store.rows, Store.incr.
  rewrite lookup_alter_ne by congruence. reflexivity.
Qed.

Lemma get_incr_elsewhere (d : store) (t t' c : string) (cond cond' : Store.where_map) :
  t' <> t ->
  Store.get (Store.incr d t column delta cond) t' c cond' = Store.get d t' c cond'.
Proof.
  intros Hne. unfold Store.get, Store.getRow.
  rewrite rows_incr_elsewhere by exact Hne. reflexivity.
Qed.

End StoreUpdate.

Lemma get_is_number (d : store) (t c : string) (cond : Store.where_map) (p : Z) :
  Store.get d t c cond = JNum p ->
  exists r, Store.getRow d t cond = Some r /\ r !! c = Some (JNum p).
Proof.
  unfold Store.get. destruct (Store.getRow d t cond) as [r|]; [|discriminate].
  intros Hp. exists r. split; [reflexivity|].
  destruct (r !! c); simpl in Hp; [congruence|discriminate].
Qed.

(** A counter read back after its update. *)
Lemma get_incr_same (d : store) (t c k user : string) (p n : Z) :
  k <> c ->
  Store.get d t c [(k, JStr user)] = JNum p ->
  Store.get (Store.incr d t c (Some n) [(k, JStr user)]) t c [(k, JStr user)]
  = JNum (p + n).
Proof.
  intros Hk Hp. destruct (get_is_number d t c _ p Hp) as (r & Hr & Hc).
  unfold Store.get. rewrite getRow_incr_same by exact Hk. rewrite Hr. simpl.
  unfold Store.bump. rewrite Hc, lookup_insert_eq. reflexivity.
Qed.

(** ** Balances under [add] and [sub] *)

Lemma balance_add (user : string) (amount : jsval) (n p : Z) (c : Points.settings)
    (d : store) :
  parseInt amount = Some n ->
  Points.getUserPoints user false c d = JNum p ->
  Points.getUserPoints user false c (Points.add user amount d) = JNum (p + n).
Proof.
  intros Hn Hp. unfold Points.add. rewrite Hn.
  apply get_incr_same; [discriminate|exact Hp].
Qed.

Lemma balance_sub (user : string) (amount : jsval) (n p : Z) (c : Points.settings)
    (d : store) :
  parseInt amount = Some n ->
  Points.getUserPoints user false c d = JNum p ->
  Points.getUserPoints user false c (Points.sub user amount d) = JNum (p - n).
Proof.
  intros Hn Hp. unfold Points.sub, Store.decr. rewrite Hn. simpl.
  replace (p - n) with (p + - n) by lia.
  apply get_incr_same; [discriminate|exact Hp].
Qed.

Lemma balance_other (user other : string) (delta : option Z) (d : store) :
  other <> user ->
  Store.get (Store.incr d "users" "points" delta (Points.by_name user)) "users" "points"
    (Points.by_name other)
  = Store.get d "users" "points" (Points.by_name other).
Proof.
  intros Hne. unfold Store.get, Points.by_name.
  rewrite getRow_incr_other; [reflexivity|discriminate|exact Hne].
Qed.

(** X1: with a balance [p] and an amount that [parseInt] reads as [n],
    [add] leaves the balance [p + n] and [sub] leaves [p - n]; nothing
    keeps the result from going below zero. *)
Theorem add_sub_move_the_balance (user : string) (amount : jsval) (n p : Z)
    (c : Points.settings) (d : store)
    (Hamount : parseInt amount = Some n)
    (Hbalance : Points.getUserPoints user false c d = JNum p) :
  Points.getUserPoints user false c (Points.add user amount d) = JNum (p + n)
  /\ Points.getUserPoints user false c (Points.sub user amount d) = JNum (p - n).
Proof.
  split; [apply balance_add | apply balance_sub]; assumption.
Qed.

(** bob owns 3 points; taking the text "10" leaves him at -7. *)
Lemma add_sub_move_the_balance_witness :
  parseInt (JStr "10") = Some 10
  /\ Points.getUserPoints "bob" false Fixture.plain Fixture.vault = JNum 3
  /\ Points.getUserPoints "bob" false Fixture.plain
       (Points.sub "bob" (JStr "10") Fixture.vault) = JNum (-7).
Proof.
  assert (Hn : parseInt (JStr "10") = Some 10) by (vm_compute; reflexivity).
  assert (Hp : Points.getUserPoints "bob" false Fixture.plain Fixture.vault = JNum 3)
    by (vm_compute; reflexivity).
  split; [exact Hn|]. split; [exact Hp|].
  exact (proj2 (add_sub_move_the_balance "bob" (JStr "10") 10 3 Fixture.plain
                  Fixture.vault Hn Hp)).
Defined.

(** X2: [sub] after [add] of the same amount gives the balance back, and
    so does [add] after [sub]. *)
Theorem add_sub_round_trip (user : string) (amount : jsval) (n p : Z)
    (c : Points.settings) (d : store)
    (Hamount : parseInt amount = Some n)
    (Hbalance : Points.getUserPoints user false c d = JNum p) :
  Points.getUserPoints user false c (Points.sub user amount (Points.add user amount d))
  = JNum p
  /\ Points.getUserPoints user false c (Points.add user amount (Points.sub user amount d))
     = JNum p.
Proof.
  split.
  - rewrite (balance_sub user amount n (p + n) c _ Hamount
               (balance_add user amount n p c d Hamount Hbalance)).
    f_equal. lia.
  - rewrite (balance_add user amount n (p - n) c _ Hamount
               (balance_sub user amount n p c d Hamount Hbalance)).
    f_equal. lia.
Qed.

Lemma add_sub_round_trip_witness :
  parseInt (JNum 8) = Some 8
  /\ Points.getUserPoints "alice" false Fixture.plain Fixture.vault = JNum 50
  /\ Points.getUserPoints "alice" false Fixture.plain
       (Points.sub "alice" (JNum 8) (Points.add "alice" (JNum 8) Fixture.vault)) = JNum 50.
Proof.
  assert (Hp : Points.getUserPoints "alice" false Fixture.plain Fixture.vault = JNum 50)
    by (vm_compute; reflexivity).
  split; [reflexivity|]. split; [exact Hp|].
  exact (proj1 (add_sub_round_trip "alice" (JNum 8) 8 50 Fixture.plain Fixture.vault
                  eq_refl Hp)).
Defined.

(** X3: [add] and [sub] on one user leave the balance of every other
    user, whatever the amount. *)
Theorem add_sub_leave_other_users (user other : string) (amount : jsval)
    (c : Points.settings) (d : store)
    (Hother : other <> user) :
  Points.getUserPoints other false c (Points.add user amount d)
  = Points.getUserPoints other false c d
  /\ Points.getUserPoints other false c (Points.sub user amount d)
     = Points.getUserPoints other false c d.
Proof.
  split; apply balance_other; exact Hother.
Qed.

Lemma add_sub_leave_other_users_witness :
  "bob" <> "alice"
  /\ Points.getUserPoints "bob" false Fixture.plain
       (Points.add "alice" (JStr "oops") Fixture.vault)
     = Points.getUserPoints "bob" false Fixture.plain Fixture.vault.
Proof.
  assert (Hne : "bob" <> "alice") by discriminate.
  split; [exact Hne|].
  exact (proj1 (add_sub_leave_other_users "alice" "bob" (JStr "oops") Fixture.plain
                  Fixture.vault Hne)).
Defined.

(** ** Affordability when a row is missing *)

(** X4: a sender with no row in [users] has a null balance, which
    compares as 0: such a sender is told they can afford exactly the
    commands with a negative price. *)
Theorem canAffordCommand_unknown_user (user command : string) (subcommand : option string)
    (c : Points.settings) (d : store) (q : Z)
    (Hnobody : Store.getRow d "users" (Points.by_name user) = None)
    (Hprice : Points.getCommandPrice command subcommand d = JNum q) :
  Points.canAffordCommand user command subcommand c d = (bool_decide (q < 0), JNull, JNum q).
Proof.
  rewrite canAffordCommand_triple, Hprice.
  unfold Points.getUserPoints, Store.get. rewrite Hnobody.
  unfold js_gt. simpl. f_equal. f_equal.
  destruct (Z.ltb_spec q 0); symmetry;
    [apply bool_decide_eq_true | apply bool_decide_eq_false]; lia.
Qed.

Lemma canAffordCommand_unknown_user_witness :
  Store.getRow Fixture.vault "users" (Points.by_name "mallory") = None
  /\ Points.getCommandPrice "gift" None Fixture.vault = JNum (-5)
  /\ Points.canAffordCommand "mallory" "gift" None Fixture.plain Fixture.vault
     = (true, JNull, JNum (-5)).
Proof.
  assert (Hno : Store.getRow Fixture.vault "users" (Points.by_name "mallory") = None)
    by (vm_compute; reflexivity).
  assert (Hq : Points.getCommandPrice "gift" None Fixture.vault = JNum (-5))
    by (vm_compute; reflexivity).
  split; [exact Hno|]. split; [exact Hq|].
  rewrite (canAffordCommand_unknown_user "mallory" "gift" None Fixture.plain
             Fixture.vault (-5) Hno Hq).
  reflexivity.
Defined.

(** X5: a command with no row in [commands] has a null price, which
    compares as 0: every sender with a positive balance can afford it,
    and a sender with balance 0 cannot. *)
Theorem canAffordCommand_unpriced_command (user command : string)
    (c : Points.settings) (d : store) (p : Z)
    (Hnorow : Store.getRow d "commands" (Points.by_name command) = None)
    (Hbalance : Points.getUserPoints user false c d = JNum p) :
  Points.canAffordCommand user command None c d = (bool_decide (p > 0), JNum p, JNull).
Proof.
  rewrite canAffordCommand_triple, Hbalance, getCommandPrice_no_subcommand.
  unfold Store.get. fold (Points.by_name command). rewrite Hnorow.
  unfold js_gt. simpl. f_equal. f_equal.
  destruct (Z.ltb_spec 0 p); symmetry;
    [apply bool_decide_eq_true | apply bool_decide_eq_false]; lia.
Qed.

Lemma canAffordCommand_unpriced_command_witness :
  Store.getRow Fixture.vault "commands" (Points.by_name "typo") = None
  /\ Points.getUserPoints "carol" false Fixture.plain Fixture.vault = JNum 0
  /\ Points.canAffordCommand "carol" "typo" None Fixture.plain Fixture.vault
     = (false, JNum 0, JNull).
Proof.
  assert (Hno : Store.getRow Fixture.vault "commands" (Points.by_name "typo") = None)
    by (vm_compute; reflexivity).
  assert (Hp : Points.getUserPoints "carol" false Fixture.plain Fixture.vault = JNum 0)
    by (vm_compute; reflexivity).
  split; [exact Hno|]. split; [exact Hp|].
  rewrite (canAffordCommand_unpriced_command "carol" "typo" Fixture.plain
             Fixture.vault 0 Hno Hp).
  reflexivity.
Defined.

(** ** What the payout job pays, and when *)

Section PayoutAmount.

Variables (bot : string) (last : list string) (payout : Z).

(** The iteration writes to [users] only: what the [ranks] table answers
    stays the same. *)
Lemma getRankBonus_payUser (rank : jsval) (d : store) (user : string) :
  Points.getRankBonus rank (Points.payUser bot last payout d user).1
  = Points.getRankBonus rank d.
Proof.
  unfold Points.payUser.
  destruct (String.eqb user bot); [reflexivity|].
  destruct (negb (includes user last)); [reflexivity|].
  destruct (Store.getRow d "users" (Points.by_name user)); [|reflexivity].
  destruct (Points.bonusOf _ d); [|reflexivity].
  cbn [fst]. unfold Points.getRankBonus.
  rewrite get_incr_elsewhere by discriminate. reflexivity.
Qed.

Lemma payUser_other_row (d : store) (user other : string) :
  other <> user ->
  Store.getRow (Points.payUser bot last payout d user).1 "users" (Points.by_name other)
  = Store.getRow d "users" (Points.by_name other).
Proof.
  intros Hne. unfold Points.payUser.
  destruct (String.eqb user bot); [reflexivity|].
  destruct (negb (includes user last)); [reflexivity|].
  destruct (Store.getRow d "users" (Points.by_name user)); [|reflexivity].
  destruct (Points.bonusOf _ d); [|reflexivity].
  cbn [fst]. unfold Points.by_name.
  apply getRow_incr_other; [discriminate|exact Hne].
Qed.

(** The callback for an eligible user whose rank has a bonus adds the
    base payout and that bonus to the user's row. *)
Lemma payUser_self_row (d : store) (user : string) (res : row) (p r : Z) :
  user <> bot ->
  includes user last = true ->
  Store.getRow d "users" (Points.by_name user) = Some res ->
  res !! "points" = Some (JNum p) ->
  Points.getRankBonus (Points.field res "rank") d = r ->
  r <> 0 ->
  Store.getRow (Points.payUser bot last payout d user).1 "users" (Points.by_name user)
  = Some (<["points" := JNum (p + (payout + r))]> res).
Proof.
  intros Hbot Hin Hrow Hp Hr Hr0. unfold Points.payUser.
  destruct (String.eqb_spec user bot); [contradiction|].
  rewrite Hin, Hrow. simpl negb. cbv iota.
  rewrite bonusOf_rank_first by (rewrite Hr; exact Hr0). rewrite Hr.
  cbn [fst]. unfold Points.by_name.
  rewrite getRow_incr_same by discriminate.
  fold (Points.by_name user). rewrite Hrow. simpl.
  unfold Store.bump. rewrite Hp. reflexivity.
Qed.

Lemma mapUsers_pays_each_listing (users : list string) :
  forall (d : store) (user : string) (res : row) (p r : Z),
    user <> bot ->
    includes user last = true ->
    Store.getRow d "users" (Points.by_name user) = Some res ->
    res !! "points" = Some (JNum p) ->
    Points.getRankBonus (Points.field res "rank") d = r ->
    r <> 0 ->
    exists res',
      Store.getRow (Points.mapUsers (Points.payUser bot last payout) users d).1 "users"
        (Points.by_name user) = Some res'
      /\ res' !! "points"
         = Some (JNum (p + Z.of_nat (count_occ String.string_dec users user)
                            * (payout + r))).
Proof.
  induction users as [|x rest IH]; intros d user res p r Hbot Hin Hrow Hp Hr Hr0.
  - exists res. split; [exact Hrow|]. simpl. rewrite Hp. do 2 f_equal. lia.
  - rewrite mapUsers_cons. cbn [fst]. simpl count_occ.
    destruct (String.string_dec x user) as [->|Hne].
    + destruct (IH (Points.payUser bot last payout d user).1 user
                  (<["points" := JNum (p + (payout + r))]> res) (p + (payout + r)) r)
        as (res' & Hrow' & Hp'); try assumption.
      * apply (payUser_self_row d user res p r); assumption.
      * apply lookup_insert_eq.
      * rewrite getRankBonus_payUser. unfold Points.field.
        rewrite lookup_insert_ne by discriminate. exact Hr.
      * exists res'. split; [exact Hrow'|]. rewrite Hp'. do 2 f_equal. lia.
    + destruct (IH (Points.payUser bot last payout d x).1 user res p r)
        as (res' & Hrow' & Hp'); try assumption.
      * rewrite payUser_other_row by congruence. exact Hrow.
      * rewrite getRankBonus_payUser. exact Hr.
      * exists res'. split; [exact Hrow'|exact Hp'].
Qed.

End PayoutAmount.

Lemma run_db (e : Points.surroundings) (s : Points.state) (payout : Z) :
  Points.due e s = Some payout ->
  Points.db (Points.run e s).1
  = (Points.mapUsers
       (Points.payUser (Points.botName e)
          (default [] (Points.lastUserList (Points.mem s))) payout)
       (default [] (Points.userList e)) (Points.db s)).1.
Proof.
  intros Hdue. rewrite (run_unfold e s payout Hdue). cbv zeta.
  destruct (Points.mapUsers _ _ _).2; reflexivity.
Qed.

Lemma run_cfg (e : Points.surroundings) (s : Points.state) :
  Points.cfg (Points.run e s).1 = Points.cfg s.
Proof.
  destruct (Points.due e s) as [payout|] eqn:Hdue.
  - rewrite (run_unfold e s payout Hdue). cbv zeta.
    destruct (Points.mapUsers _ _ _).2; reflexivity.
  - unfold Points.run. rewrite Hdue. reflexivity.
Qed.

(** X6: in a due run, a user other than the bot who was in the previous
    list and whose rank has a bonus [r] (not 0) gains the base payout
    plus [r] once for every time the name stands in the current user
    list: not at all when absent, twice when listed twice.  This holds
    also when the run fails on another user. *)
Theorem run_pays_base_and_rank_bonus_per_listing
    (e : Points.surroundings) (s : Points.state) (c : Points.settings)
    (user : string) (res : row) (payout p r : Z)
    (Hdue : Points.due e s = Some payout)
    (Hbot : user <> Points.botName e)
    (Hlast : includes user (default [] (Points.lastUserList (Points.mem s))) = true)
    (Hrow : Store.getRow (Points.db s) "users" (Points.by_name user) = Some res)
    (Hpoints : res !! "points" = Some (JNum p))
    (Hrank : Points.getRankBonus (Points.field res "rank") (Points.db s) = r)
    (Hbonus : r <> 0) :
  Points.getUserPoints user false c (Points.db (Points.run e s).1)
  = JNum (p + Z.of_nat (count_occ String.string_dec (default [] (Points.userList e)) user)
              * (payout + r)).
Proof.
  rewrite (run_db e s payout Hdue).
  destruct (mapUsers_pays_each_listing (Points.botName e)
              (default [] (Points.lastUserList (Points.mem s))) payout
              (default [] (Points.userList e)) (Points.db s) user res p r
              Hbot Hlast Hrow Hpoints Hrank Hbonus) as (res' & Hrow' & Hp').
  unfold Points.getUserPoints, Store.get. rewrite Hrow', Hp'. reflexivity.
Qed.

(** alice is listed twice next to carol, on whom the run fails: alice
    gains 2 * (6 + 3). *)
Lemma run_pays_base_and_rank_bonus_per_listing_witness :
  let e := Fixture.on_air 1000000 ["alice"; "carol"; "alice"] in
  let s := Fixture.since 0 ["alice"; "carol"] in
  Points.due e s = Some 6
  /\ (Points.run e s).2 = Rejected "ReferenceError: _storedGroupBonus is not defined"
  /\ Points.getUserPoints "alice" false Fixture.plain (Points.db (Points.run e s).1)
     = JNum 68.
Proof.
  cbv zeta.
  assert (Hdue : Points.due (Fixture.on_air 1000000 ["alice"; "carol"; "alice"])
                   (Fixture.since 0 ["alice"; "carol"]) = Some 6)
    by (vm_compute; reflexivity).
  split; [exact Hdue|]. split; [vm_compute; reflexivity|].
  rewrite (run_pays_base_and_rank_bonus_per_listing
             (Fixture.on_air 1000000 ["alice"; "carol"; "alice"])
             (Fixture.since 0 ["alice"; "carol"]) Fixture.plain "alice"
             (Fixture.member "alice" 50 2) 6 50 3 Hdue).
  - vm_compute. reflexivity.
  - discriminate.
  - vm_compute. reflexivity.
  - vm_compute. reflexivity.
  - vm_compute. reflexivity.
  - vm_compute. reflexivity.
  - discriminate.
Defined.

Lemma due_positive (e : Points.surroundings) (s : Points.state) :
  Points.getPayoutAmount (negb (Points.isLive e)) (Points.cfg s) > 0 ->
  Points.getPayoutInterval (negb (Points.isLive e)) (Points.cfg s) > 0 ->
  Points.due e s
  = if default 0 (Points.lastPayout (Points.mem s))
       + Points.getPayoutInterval (negb (Points.isLive e)) (Points.cfg s) * 60 * 1000
       >=? Points.now e
    then None
    else Some (Points.getPayoutAmount (negb (Points.isLive e)) (Points.cfg s)).
Proof.
  intros Hamt Hint. unfold Points.due.
  destruct (Points.isLive e); simpl negb in *.
  - replace (Points.getPayoutAmount false (Points.cfg s) >? 0) with true
      by (symmetry; rewrite Z.gtb_ltb; apply Z.ltb_lt; lia).
    replace (Points.getPayoutInterval false (Points.cfg s) >? 0) with true
      by (symmetry; rewrite Z.gtb_ltb; apply Z.ltb_lt; lia).
    reflexivity.
  - replace (Points.getPayoutAmount true (Points.cfg s) >? 0) with true
      by (symmetry; rewrite Z.gtb_ltb; apply Z.ltb_lt; lia).
    replace (Points.getPayoutInterval true (Points.cfg s) >? 0) with true
      by (symmetry; rewrite Z.gtb_ltb; apply Z.ltb_lt; lia).
    reflexivity.
Qed.

(** X7: with a positive amount and interval for the current stream state
    (live or offline), the job pays that amount only once more than the
    interval, in minutes, has passed since the last payout; at exactly
    the interval, and before, the run changes nothing. *)
Theorem run_waits_for_the_interval (e : Points.surroundings) (s : Points.state)
    (Hamount : Points.getPayoutAmount (negb (Points.isLive e)) (Points.cfg s) > 0)
    (Hinterval : Points.getPayoutInterval (negb (Points.isLive e)) (Points.cfg s) > 0) :
  let next := default 0 (Points.lastPayout (Points.mem s))
              + Points.getPayoutInterval (negb (Points.isLive e)) (Points.cfg s) * 60000 in
  (Points.now e <= next -> Points.run e s = (s, Resolved))
  /\ (Points.now e > next ->
      Points.due e s = Some (Points.getPayoutAmount (negb (Points.isLive e)) (Points.cfg s))).
Proof.
  cbv zeta. pose proof (due_positive e s Hamount Hinterval) as Hdue.
  split; intros Hnow.
  - unfold Points.run. rewrite Hdue.
    destruct (Z.geb_spec
                (default 0 (Points.lastPayout (Points.mem s))
                 + Points.getPayoutInterval (negb (Points.isLive e)) (Points.cfg s) * 60 * 1000)
                (Points.now e)); [reflexivity|lia].
  - rewrite Hdue.
    destruct (Z.geb_spec
                (default 0 (Points.lastPayout (Points.mem s))
                 + Points.getPayoutInterval (negb (Points.isLive e)) (Points.cfg s) * 60 * 1000)
                (Points.now e)); [lia|reflexivity].
Qed.

(** Live with the default settings (6 points every 5 minutes): a run
    exactly 300000 ms after the last payout changes nothing. *)
Lemma run_waits_for_the_interval_witness :
  let e := Fixture.on_air 300000 ["alice"] in
  let s := Fixture.since 0 ["alice"] in
  Points.getPayoutAmount (negb (Points.isLive e)) (Points.cfg s) = 6
  /\ Points.getPayoutInterval (negb (Points.isLive e)) (Points.cfg s) = 5
  /\ Points.run e s = (s, Resolved)
  /\ Points.due (Fixture.on_air 300001 ["alice"]) s = Some 6.
Proof.
  cbv zeta. split; [reflexivity|]. split; [reflexivity|]. split.
  - apply (run_waits_for_the_interval (Fixture.on_air 300000 ["alice"])
             (Fixture.since 0 ["alice"])); vm_compute; congruence.
  - apply (run_waits_for_the_interval (Fixture.on_air 300001 ["alice"])
             (Fixture.since 0 ["alice"])); vm_compute; congruence.
Defined.

(** X8: while no offline amount or no offline interval is stored, their
    default of -1 applies and a run with the stream offline never pays:
    it leaves the store and both cache entries as they are. *)
Theorem offline_payout_is_off_by_default (e : Points.surroundings) (s : Points.state)
    (Hoffline : Points.isLive e = false)
    (Hunset : Points.numbers (Points.cfg s) !! "pointsPayoutOffline" = None
              \/ Points.numbers (Points.cfg s) !! "pointsIntervalOffline" = None) :
  Points.run e s = (s, Resolved).
Proof.
  apply run_offline_skipped; [exact Hoffline|].
  unfold Points.getPayoutAmount, Points.getPayoutInterval. simpl.
  destruct Hunset as [-> | ->]; simpl; [left|right]; lia.
Qed.

Lemma offline_payout_is_off_by_default_witness :
  Points.isLive (Fixture.off_air 9000000 ["alice"]) = false
  /\ Points.numbers Fixture.plain !! "pointsPayoutOffline" = None
  /\ Points.run (Fixture.off_air 9000000 ["alice"]) (Fixture.since 0 ["alice"])
     = (Fixture.since 0 ["alice"], Resolved).
Proof.
  split; [reflexivity|]. split; [reflexivity|].
  apply offline_payout_is_off_by_default; [reflexivity|left; reflexivity].
Defined.

(** X9: no run of the job, due or not, completed or failed, changes the
    balance of the bot's own account or of a user who is missing from the
    list remembered from the previous cycle. *)
Theorem run_never_pays_bot_or_newcomer (e : Points.surroundings) (s : Points.state)
    (c : Points.settings) (user : string)
    (Hskip : user = Points.botName e
             \/ includes user (default [] (Points.lastUserList (Points.mem s))) = false) :
  Points.getUserPoints user false c (Points.db (Points.run e s).1)
  = Points.getUserPoints user false c (Points.db s).
Proof. apply run_skips_bot_and_newcomers. exact Hskip. Qed.

(** bob is listed now but was not in the previous list. *)
Lemma run_never_pays_bot_or_newcomer_witness :
  let e := Fixture.on_air 1000000 ["alice"; "bob"] in
  let s := Fixture.since 0 ["alice"] in
  includes "bob" (default [] (Points.lastUserList (Points.mem s))) = false
  /\ Points.due e s = Some 6
  /\ Points.getUserPoints "bob" false Fixture.plain (Points.db (Points.run e s).1) = JNum 3.
Proof.
  cbv zeta.
  assert (Hnew : includes "bob"
                   (default [] (Points.lastUserList
                                  (Points.mem (Fixture.since 0 ["alice"])))) = false)
    by reflexivity.
  split; [exact Hnew|]. split; [vm_compute; reflexivity|].
  rewrite (run_never_pays_bot_or_newcomer (Fixture.on_air 1000000 ["alice"; "bob"])
             (Fixture.since 0 ["alice"]) Fixture.plain "bob" (or_intror Hnew)).
  vm_compute. reflexivity.
Defined.

(** X10: a due run that completes remembers the current user list and
    the current time, so that exactly the users listed in this run pass
    the membership check of the next one. *)
Theorem completed_run_sets_next_eligibility
    (e : Points.surroundings) (s : Points.state) (payout : Z)
    (Hdue : Points.due e s = Some payout)
    (Hdone : (Points.run e s).2 = Resolved) :
  Points.lastPayout (Points.mem (Points.run e s).1) = Some (Points.now e)
  /\ Points.lastUserList (Points.mem (Points.run e s).1)
     = Some (default [] (Points.userList e))
  /\ forall user,
       includes user (default [] (Points.lastUserList (Points.mem (Points.run e s).1)))
       = includes user (default [] (Points.userList e)).
Proof.
  rewrite (run_completed_updates_cache e s payout Hdue Hdone). simpl.
  repeat split.
Qed.

Lemma completed_run_sets_next_eligibility_witness :
  let e := Fixture.on_air 1000000 ["alice"; "bob"] in
  let s := Fixture.since 0 ["alice"] in
  Points.due e s = Some 6
  /\ (Points.run e s).2 = Resolved
  /\ includes "bob" (default [] (Points.lastUserList (Points.mem (Points.run e s).1)))
     = true.
Proof.
  cbv zeta.
  assert (Hdue : Points.due (Fixture.on_air 1000000 ["alice"; "bob"])
                   (Fixture.since 0 ["alice"]) = Some 6) by (vm_compute; reflexivity).
  assert (Hdone : (Points.run (Fixture.on_air 1000000 ["alice"; "bob"])
                     (Fixture.since 0 ["alice"])).2 = Resolved)
    by (vm_compute; reflexivity).
  split; [exact Hdue|]. split; [exact Hdone|].
  destruct (completed_run_sets_next_eligibility _ _ 6 Hdue Hdone) as (_ & _ & Hin).
  rewrite Hin. reflexivity.
Defined.

(** X11: a run that fails leaves the payout time and the remembered list
    as they were, and the settings too: whatever the job would have
    decided at a later time before the failed run, it decides after it. *)
Theorem failed_run_keeps_the_schedule
    (e later : Points.surroundings) (s : Points.state) (err : string)
    (Hfailed : (Points.run e s).2 = Rejected err) :
  Points.mem (Points.run e s).1 = Points.mem s
  /\ Points.due later (Points.run e s).1 = Points.due later s.
Proof.
  pose proof (run_failed_keeps_cache e s err Hfailed) as Hmem.
  split; [exact Hmem|].
  unfold Points.due. rewrite Hmem, run_cfg. reflexivity.
Qed.

Lemma failed_run_keeps_the_schedule_witness :
  let e := Fixture.on_air 1000000 ["carol"] in
  let s := Fixture.since 0 ["carol"] in
  (Points.run e s).2 = Rejected "ReferenceError: _storedGroupBonus is not defined"
  /\ Points.due (Fixture.on_air 1060000 ["carol"]) (Points.run e s).1 = Some 6.
Proof.
  cbv zeta.
  assert (Hfailed : (Points.run (Fixture.on_air 1000000 ["carol"])
                       (Fixture.since 0 ["carol"])).2
                    = Rejected "ReferenceError: _storedGroupBonus is not defined")
    by (vm_compute; reflexivity).
  split; [exact Hfailed|].
  destruct (failed_run_keeps_the_schedule (Fixture.on_air 1000000 ["carol"])
              (Fixture.on_air 1060000 ["carol"]) (Fixture.since 0 ["carol"]) _ Hfailed)
    as [_ Hdue].
  rewrite Hdue. vm_compute. reflexivity.
Defined.

(** ** The dispatcher: the other ways a dispatch ends *)

Section DispatchPaths.

Import Dispatcher.

Variable E : Engine.

Lemma runCommand_reaches_execute (w : World) (event ev1 : Event) (s : option string) :
  Engines.passes_checks E event ev1 w s ->
  runCommand E event w
  = execute E (getExtConfig E w "cooldown" "enabled" true)
      (getExtConfig E w "points" "enabled" true)
      (Engines.charge_of E event w s) s ev1 w.
Proof.
  intros (Hres & Hex & Hen & Hcool & Hlevel & Hpay).
  rewrite (runCommand_reaches_permit E w event ev1 s Hres Hex Hen Hcool).
  destruct (resolve_keeps E w event ev1 s Hres) as (Hc & Hu & Hg & _).
  rewrite permit_passes by (rewrite Hg; exact Hlevel).
  rewrite afford_passes by (rewrite Hc, Hu; exact Hpay).
  unfold Engines.charge_of. rewrite Hc. reflexivity.
Qed.

Lemma execute_handler_returns (ce pe : bool) (charge : jsval) (s : option string)
    (ev ev' : Event) (w w' : World) :
  isCustom E w (command ev) = false ->
  runner E (command ev) (with_respond ev) w = Returned ev' w' ->
  execute E ce pe charge s ev w
  = (commit ce pe charge (command ev) (sender ev) s ev' w', Resolved).
Proof.
  intros Hcode Hret. unfold execute. rewrite Hcode, Hret. reflexivity.
Qed.

Lemma execute_custom (ce pe : bool) (charge : jsval) (s : option string)
    (ev : Event) (w : World) :
  isCustom E w (command ev) = true ->
  execute E ce pe charge s ev w
  = match params E (with_respond ev)
            (Store.get (db w) "commands" "response"
               [("name", JStr (command ev)); ("module", JStr "custom")]) with
    | Ok text =>
        (commit ce pe charge (command ev) (sender ev) s (with_respond ev)
           (send (Say (sender ev) text) w), Resolved)
    | Throw e => (w, Rejected e)
    end.
Proof. intros Hcustom. unfold execute. rewrite Hcustom. reflexivity. Qed.

(** What the last lines of [runCommand] change, field by field. *)
Lemma commit_fields (ce pe : bool) (charge : jsval) (c u : string) (s : option string)
    (ev : Event) (w : World) :
  emitted (commit ce pe charge c u s ev w)
  = ("command:" +:+ c +:+ suffix ":" s, ev) :: emitted w
  /\ outbox (commit ce pe charge c u s ev w) = outbox w
  /\ logs (commit ce pe charge c u s ev w) = logs w
  /\ cooldowns (commit ce pe charge c u s ev w)
     = (if ce then cooldowns (startCooldown c u s w) else cooldowns w)
  /\ db (commit ce pe charge c u s ev w)
     = (if pe && truthy charge then Points.sub u charge (db w) else db w).
Proof.
  unfold commit. destruct ce, pe; simpl; destruct (truthy charge); repeat split.
Qed.

End DispatchPaths.

(** X12: a registered command whose (sub)command is disabled ends the
    dispatch with one log line: no message to the sender, no handler
    call, no change to the store, the cooldown records or the emitted
    events. *)
Theorem runCommand_disabled_is_silent
    (E : Dispatcher.Engine) (event ev1 : Dispatcher.Event) (w : Dispatcher.World)
    (s : option string)
    (Hres : Dispatcher.resolve E w event = (s, ev1))
    (Hexists : Dispatcher.exists_ E w (Dispatcher.command event) None = true)
    (Hdisabled : Dispatcher.isEnabled E w (Dispatcher.command event) s = false) :
  let r := Dispatcher.runCommand E event w in
  r = (Dispatcher.log
         (Dispatcher.LogEvent "core"
            ("'" +:+ Dispatcher.command event +:+ Dispatcher.suffix " " s
             +:+ "' is installed but is not enabled")) w,
       Resolved)
  /\ Dispatcher.outbox r.1 = Dispatcher.outbox w
  /\ Dispatcher.db r.1 = Dispatcher.db w
  /\ Dispatcher.cooldowns r.1 = Dispatcher.cooldowns w
  /\ Dispatcher.emitted r.1 = Dispatcher.emitted w.
Proof.
  cbv zeta. unfold Dispatcher.runCommand. rewrite Hres, Hexists, Hdisabled. simpl.
  repeat split.
Qed.

Lemma runCommand_disabled_is_silent_witness :
  let event := Fixture.chat "closed" [] "alice" 1 in
  let r := Dispatcher.runCommand (Fixture.house true true) event Fixture.lobby in
  Dispatcher.resolve (Fixture.house true true) Fixture.lobby event = (None, event)
  /\ Dispatcher.logs r.1
     = [Dispatcher.LogEvent "core" "'closed' is installed but is not enabled"]
  /\ Dispatcher.outbox r.1 = [].
Proof.
  cbv zeta.
  assert (Hres : Dispatcher.resolve (Fixture.house true true) Fixture.lobby
                   (Fixture.chat "closed" [] "alice" 1)
                 = (None, Fixture.chat "closed" [] "alice" 1)) by reflexivity.
  split; [exact Hres|].
  destruct (runCommand_disabled_is_silent (Fixture.house true true)
              (Fixture.chat "closed" [] "alice" 1) (Fixture.chat "closed" [] "alice" 1)
              Fixture.lobby None Hres eq_refl eq_refl) as (Hr & Hout & _).
  split; [rewrite Hr; reflexivity | exact Hout].
Defined.

(** X13: with cooldowns switched on, a registered and enabled command
    that is on cooldown for the sender ends the dispatch with a whisper
    telling the seconds left, before the permission and affordability
    checks: no handler call, no debit, no new cooldown, no event. *)
Theorem runCommand_on_cooldown_notifies
    (E : Dispatcher.Engine) (event ev1 : Dispatcher.Event) (w : Dispatcher.World)
    (s : option string)
    (Hres : Dispatcher.resolve E w event = (s, ev1))
    (Hexists : Dispatcher.exists_ E w (Dispatcher.command event) None = true)
    (Henabled : Dispatcher.isEnabled E w (Dispatcher.command event) s = true)
    (Hswitch : Dispatcher.getExtConfig E w "cooldown" "enabled" true = true)
    (Hactive : truthy (Dispatcher.isOnCooldown E w (Dispatcher.command event)
                         (Dispatcher.sender event) s) = true) :
  let left := Dispatcher.isOnCooldown E w (Dispatcher.command event)
                (Dispatcher.sender event) s in
  let r := Dispatcher.runCommand E event w in
  r.2 = Resolved
  /\ Dispatcher.outbox r.1
     = Dispatcher.Whisper (Dispatcher.sender event)
         ("You need to wait " +:+ show left +:+ " seconds to use !"
          +:+ Dispatcher.command event +:+ " again.") :: Dispatcher.outbox w
  /\ Dispatcher.db r.1 = Dispatcher.db w
  /\ Dispatcher.cooldowns r.1 = Dispatcher.cooldowns w
  /\ Dispatcher.emitted r.1 = Dispatcher.emitted w.
Proof.
  cbv zeta. unfold Dispatcher.runCommand. rewrite Hres, Hexists, Henabled. simpl.
  destruct (resolve_keeps E w event ev1 s Hres) as (Hc & Hu & _).
  unfold Dispatcher.cool. rewrite Hswitch, Hc, Hu, Hactive. simpl.
  repeat split.
Qed.

Lemma runCommand_on_cooldown_notifies_witness :
  let event := Fixture.chat "slow" [] "alice" 9 in
  let r := Dispatcher.runCommand (Fixture.house true true) event Fixture.lobby in
  Dispatcher.resolve (Fixture.house true true) Fixture.lobby event = (None, event)
  /\ Dispatcher.outbox r.1
     = [Dispatcher.Whisper "alice" "You need to wait 7 seconds to use !slow again."].
Proof.
  cbv zeta.
  assert (Hres : Dispatcher.resolve (Fixture.house true true) Fixture.lobby
                   (Fixture.chat "slow" [] "alice" 9)
                 = (None, Fixture.chat "slow" [] "alice" 9)) by reflexivity.
  split; [exact Hres|].
  destruct (runCommand_on_cooldown_notifies (Fixture.house true true)
              (Fixture.chat "slow" [] "alice" 9) (Fixture.chat "slow" [] "alice" 9)
              Fixture.lobby None Hres eq_refl eq_refl eq_refl eq_refl) as (_ & Hout & _).
  rewrite Hout. vm_compute. reflexivity.
Defined.

(** X14: with the points extension switched on, a sender who passed the
    earlier checks but whose balance is not greater than the price is
    whispered the price and the balance; the handler is not called and
    nothing is charged, started or emitted. *)
Theorem runCommand_cannot_afford_notifies
    (E : Dispatcher.Engine) (event ev1 : Dispatcher.Event) (w : Dispatcher.World)
    (s : option string)
    (Hres : Dispatcher.resolve E w event = (s, ev1))
    (Hexists : Dispatcher.exists_ E w (Dispatcher.command event) None = true)
    (Henabled : Dispatcher.isEnabled E w (Dispatcher.command event) s = true)
    (Hcool : Dispatcher.getExtConfig E w "cooldown" "enabled" true = true ->
             truthy (Dispatcher.isOnCooldown E w (Dispatcher.command event)
                       (Dispatcher.sender event) s) = false)
    (Hlevel : Dispatcher.groupID event
              <= Dispatcher.getPermLevel E w (Dispatcher.command event) s)
    (Hswitch : Dispatcher.getExtConfig E w "points" "enabled" true = true)
    (Hpoor : (Points.canAffordCommand (Dispatcher.sender event) (Dispatcher.command event) s
                (Dispatcher.cfg w) (Dispatcher.db w)).1.1 = false) :
  let price := Points.getCommandPrice (Dispatcher.command event) s (Dispatcher.db w) in
  let balance := Points.getUserPoints (Dispatcher.sender event) false (Dispatcher.cfg w)
                   (Dispatcher.db w) in
  let r := Dispatcher.runCommand E event w in
  r.2 = Resolved
  /\ Dispatcher.outbox r.1
     = Dispatcher.Whisper (Dispatcher.sender event)
         ("You don't have enough points to use !" +:+ Dispatcher.command event +:+ ". "
          +:+ "» costs " +:+ show price +:+ ", you have " +:+ show balance)
       :: Dispatcher.outbox w
  /\ Dispatcher.db r.1 = Dispatcher.db w
  /\ Dispatcher.cooldowns r.1 = Dispatcher.cooldowns w
  /\ Dispatcher.emitted r.1 = Dispatcher.emitted w.
Proof.
  cbv zeta. rewrite (runCommand_reaches_permit E w event ev1 s Hres Hexists Henabled Hcool).
  destruct (resolve_keeps E w event ev1 s Hres) as (Hc & Hu & Hg & _).
  rewrite permit_passes by (rewrite Hg; exact Hlevel).
  unfold Dispatcher.afford. rewrite Hswitch, Hc, Hu.
  rewrite canAffordCommand_triple in Hpoor |- *. cbn [fst] in Hpoor. cbv beta iota.
  rewrite Hpoor. simpl. repeat split.
Qed.

(** bob owns 3 points and [points] costs 20. *)
Lemma runCommand_cannot_afford_notifies_witness :
  let event := Fixture.chat "points" [] "bob" 1 in
  let r := Dispatcher.runCommand (Fixture.house true true) event Fixture.lobby in
  Dispatcher.resolve (Fixture.house true true) Fixture.lobby event = (None, event)
  /\ (Points.canAffordCommand "bob" "points" None Fixture.plain Fixture.vault).1.1 = false
  /\ Fixture.balance (Dispatcher.db r.1) "bob" = JNum 3
  /\ Dispatcher.emitted r.1 = [].
Proof.
  cbv zeta.
  assert (Hres : Dispatcher.resolve (Fixture.house true true) Fixture.lobby
                   (Fixture.chat "points" [] "bob" 1)
                 = (None, Fixture.chat "points" [] "bob" 1)) by reflexivity.
  assert (Hpoor : (Points.canAffordCommand "bob" "points" None Fixture.plain
                     Fixture.vault).1.1 = false) by (vm_compute; reflexivity).
  split; [exact Hres|]. split; [exact Hpoor|].
  destruct (runCommand_cannot_afford_notifies (Fixture.house true true)
              (Fixture.chat "points" [] "bob" 1) (Fixture.chat "points" [] "bob" 1)
              Fixture.lobby None Hres eq_refl eq_refl (fun _ => eq_refl)
              ltac:(vm_compute; discriminate) eq_refl Hpoor)
    as (_ & _ & Hdb & _ & Hemit).
  split; [rewrite Hdb; vm_compute; reflexivity | exact Hemit].
Defined.

(** X15: when the checks are passed and the handler of a command that is
    not custom returns, [runCommand] resolves and commits on the world
    the handler left: it emits one event on [command:<command>], with
    [:<subcommand>] appended when there is one, starts the cooldown of
    the resolved pair when cooldowns are switched on (and writes no
    record when they are off), debits the charge when it is truthy, and
    sends and logs nothing of its own. *)
Theorem runCommand_success_commits
    (E : Dispatcher.Engine) (event ev1 ev' : Dispatcher.Event) (w w' : Dispatcher.World)
    (s : option string)
    (Hpass : Engines.passes_checks E event ev1 w s)
    (Hcode : Dispatcher.isCustom E w (Dispatcher.command event) = false)
    (Hreturn : Dispatcher.runner E (Dispatcher.command event) (Dispatcher.with_respond ev1) w
               = Dispatcher.Returned ev' w') :
  let c := Dispatcher.command event in
  let u := Dispatcher.sender event in
  let charge := Engines.charge_of E event w s in
  let r := Dispatcher.runCommand E event w in
  r.2 = Resolved
  /\ Dispatcher.emitted r.1
     = ("command:" +:+ c +:+ Dispatcher.suffix ":" s, ev') :: Dispatcher.emitted w'
  /\ Dispatcher.outbox r.1 = Dispatcher.outbox w'
  /\ Dispatcher.logs r.1 = Dispatcher.logs w'
  /\ Dispatcher.cooldowns r.1
     = (if Dispatcher.getExtConfig E w "cooldown" "enabled" true
        then Dispatcher.cooldowns (Dispatcher.startCooldown c u s w')
        else Dispatcher.cooldowns w')
  /\ Dispatcher.db r.1
     = (if Dispatcher.getExtConfig E w "points" "enabled" true && truthy charge
        then Points.sub u charge (Dispatcher.db w') else Dispatcher.db w').
Proof.
  cbv zeta. rewrite (runCommand_reaches_execute E w event ev1 s Hpass).
  destruct Hpass as (Hres & _).
  destruct (resolve_keeps E w event ev1 s Hres) as (Hc & Hu & _).
  rewrite (execute_handler_returns E _ _ _ s ev1 ev' w w') by (rewrite ?Hc; assumption).
  rewrite Hc, Hu. cbn [fst snd]. split; [reflexivity|].
  apply commit_fields.
Qed.

Lemma house_passes_checks (c : string) (u : string) (pointsOn cooldownsOn : bool) :
  Fixture.listed c = true ->
  String.eqb c "closed" = false ->
  String.eqb c "slow" = false ->
  (pointsOn = true ->
   (Points.canAffordCommand u c None Fixture.plain Fixture.vault).1.1 = true) ->
  Engines.passes_checks (Fixture.house pointsOn cooldownsOn) (Fixture.chat c [] u 1)
    (Fixture.chat c [] u 1) Fixture.lobby None.
Proof.
  intros Hlisted Hopen Hfast Hpay. unfold Engines.passes_checks. simpl.
  rewrite Hlisted, Hopen, Hfast. simpl.
  repeat split; try reflexivity; try lia. exact Hpay.
Qed.

(** alice runs [points] with both extensions on. *)
Lemma runCommand_success_commits_witness :
  let event := Fixture.chat "points" [] "alice" 1 in
  let r := Dispatcher.runCommand (Fixture.house true true) event Fixture.lobby in
  Engines.passes_checks (Fixture.house true true) event event Fixture.lobby None
  /\ List.map fst (Dispatcher.emitted r.1) = ["command:points"]
  /\ List.map Dispatcher.cd_at (Dispatcher.cooldowns r.1) = [5000].
Proof.
  cbv zeta.
  assert (Hpass : Engines.passes_checks (Fixture.house true true)
                    (Fixture.chat "points" [] "alice" 1)
                    (Fixture.chat "points" [] "alice" 1) Fixture.lobby None).
  { apply house_passes_checks; reflexivity. }
  split; [exact Hpass|].
  destruct (runCommand_success_commits (Fixture.house true true)
              (Fixture.chat "points" [] "alice" 1) (Fixture.chat "points" [] "alice" 1)
              (Dispatcher.with_respond (Fixture.chat "points" [] "alice" 1))
              Fixture.lobby
              (Dispatcher.send (Dispatcher.Say "alice" "done") Fixture.lobby)
              None Hpass eq_refl eq_refl) as (_ & Hemit & _ & _ & Hcd & _).
  rewrite Hemit, Hcd. split; reflexivity.
Defined.

Lemma runCommand_success_world
    (E : Dispatcher.Engine) (event ev1 ev' : Dispatcher.Event) (w w' : Dispatcher.World)
    (s : option string) :
  Engines.passes_checks E event ev1 w s ->
  Dispatcher.isCustom E w (Dispatcher.command event) = false ->
  Dispatcher.runner E (Dispatcher.command event) (Dispatcher.with_respond ev1) w
  = Dispatcher.Returned ev' w' ->
  Dispatcher.runCommand E event w
  = (Dispatcher.commit (Dispatcher.getExtConfig E w "cooldown" "enabled" true)
       (Dispatcher.getExtConfig E w "points" "enabled" true)
       (Engines.charge_of E event w s) (Dispatcher.command event)
       (Dispatcher.sender event) s ev' w',
     Resolved).
Proof.
  intros Hpass Hcode Hreturn. rewrite (runCommand_reaches_execute E w event ev1 s Hpass).
  destruct Hpass as (Hres & _).
  destruct (resolve_keeps E w event ev1 s Hres) as (Hc & Hu & _).
  rewrite (execute_handler_returns E _ _ _ s ev1 ev' w w') by (rewrite ?Hc; assumption).
  rewrite Hc, Hu. reflexivity.
Qed.

(** X16: with the points extension on and a resolved price [q] other
    than 0, a successful dispatch takes exactly [q] from the balance the
    sender has when the handler returns.  The balance is not checked
    again, and a negative price adds to it. *)
Theorem runCommand_debits_the_price
    (E : Dispatcher.Engine) (event ev1 ev' : Dispatcher.Event) (w w' : Dispatcher.World)
    (s : option string) (c : Points.settings) (p q : Z)
    (Hpass : Engines.passes_checks E event ev1 w s)
    (Hcode : Dispatcher.isCustom E w (Dispatcher.command event) = false)
    (Hreturn : Dispatcher.runner E (Dispatcher.command event) (Dispatcher.with_respond ev1) w
               = Dispatcher.Returned ev' w')
    (Hswitch : Dispatcher.getExtConfig E w "points" "enabled" true = true)
    (Hprice : Points.getCommandPrice (Dispatcher.command event) s (Dispatcher.db w) = JNum q)
    (Hnonzero : q <> 0)
    (Hbalance : Points.getUserPoints (Dispatcher.sender event) false c (Dispatcher.db w')
                = JNum p) :
  Points.getUserPoints (Dispatcher.sender event) false c
    (Dispatcher.db (Dispatcher.runCommand E event w).1) = JNum (p - q).
Proof.
  rewrite (runCommand_success_world E event ev1 ev' w w' s Hpass Hcode Hreturn).
  cbn [fst].
  destruct (commit_fields (Dispatcher.getExtConfig E w "cooldown" "enabled" true)
              (Dispatcher.getExtConfig E w "points" "enabled" true)
              (Engines.charge_of E event w s) (Dispatcher.command event)
              (Dispatcher.sender event) s ev' w') as (_ & _ & _ & _ & Hdb).
  rewrite Hdb. unfold Engines.charge_of. rewrite Hswitch, Hprice. simpl.
  destruct (Z.eqb_spec q 0); [contradiction|]. simpl.
  apply (balance_sub (Dispatcher.sender event) (JNum q) q p c);
    [reflexivity|exact Hbalance].
Qed.

(** alice owns 50 points; [gift] costs -5 and leaves her 55. *)
Lemma runCommand_debits_the_price_witness :
  let event := Fixture.chat "gift" [] "alice" 1 in
  Engines.passes_checks (Fixture.house true true) event event Fixture.lobby None
  /\ Points.getCommandPrice "gift" None Fixture.vault = JNum (-5)
  /\ Fixture.balance
       (Dispatcher.db (Dispatcher.runCommand (Fixture.house true true) event
                         Fixture.lobby).1) "alice" = JNum 55.
Proof.
  cbv zeta.
  assert (Hpass : Engines.passes_checks (Fixture.house true true)
                    (Fixture.chat "gift" [] "alice" 1)
                    (Fixture.chat "gift" [] "alice" 1) Fixture.lobby None).
  { apply house_passes_checks; reflexivity. }
  assert (Hq : Points.getCommandPrice "gift" None Fixture.vault = JNum (-5))
    by (vm_compute; reflexivity).
  split; [exact Hpass|]. split; [exact Hq|].
  apply (runCommand_debits_the_price (Fixture.house true true)
           (Fixture.chat "gift" [] "alice" 1) (Fixture.chat "gift" [] "alice" 1)
           (Dispatcher.with_respond (Fixture.chat "gift" [] "alice" 1))
           Fixture.lobby
           (Dispatcher.send (Dispatcher.Say "alice" "done") Fixture.lobby)
           None Fixture.plain 50 (-5) Hpass eq_refl eq_refl eq_refl Hq).
  - discriminate.
  - vm_compute. reflexivity.
Defined.

(** X17: a successful dispatch leaves the store as the handler left it
    when the points extension is off, and also when the resolved price is
    falsy: 0, or null because no price is stored. *)
Theorem runCommand_charges_nothing
    (E : Dispatcher.Engine) (event ev1 ev' : Dispatcher.Event) (w w' : Dispatcher.World)
    (s : option string)
    (Hpass : Engines.passes_checks E event ev1 w s)
    (Hcode : Dispatcher.isCustom E w (Dispatcher.command event) = false)
    (Hreturn : Dispatcher.runner E (Dispatcher.command event) (Dispatcher.with_respond ev1) w
               = Dispatcher.Returned ev' w')
    (Hfree : Dispatcher.getExtConfig E w "points" "enabled" true = false
             \/ truthy (Points.getCommandPrice (Dispatcher.command event) s
                          (Dispatcher.db w)) = false) :
  Dispatcher.db (Dispatcher.runCommand E event w).1 = Dispatcher.db w'.
Proof.
  rewrite (runCommand_success_world E event ev1 ev' w w' s Hpass Hcode Hreturn).
  cbn [fst].
  destruct (commit_fields (Dispatcher.getExtConfig E w "cooldown" "enabled" true)
              (Dispatcher.getExtConfig E w "points" "enabled" true)
              (Engines.charge_of E event w s) (Dispatcher.command event)
              (Dispatcher.sender event) s ev' w') as (_ & _ & _ & _ & Hdb).
  rewrite Hdb. unfold Engines.charge_of.
  destruct Hfree as [-> | Hzero]; [reflexivity|].
  destruct (Dispatcher.getExtConfig E w "points" "enabled" true); [|reflexivity].
  rewrite Hzero. reflexivity.
Qed.

(** With the points extension off, bob (3 points) runs [points] (20). *)
Lemma runCommand_charges_nothing_witness :
  let event := Fixture.chat "points" [] "bob" 1 in
  Engines.passes_checks (Fixture.house false true) event event Fixture.lobby None
  /\ Fixture.balance
       (Dispatcher.db (Dispatcher.runCommand (Fixture.house false true) event
                         Fixture.lobby).1) "bob" = JNum 3.
Proof.
  cbv zeta.
  assert (Hpass : Engines.passes_checks (Fixture.house false true)
                    (Fixture.chat "points" [] "bob" 1)
                    (Fixture.chat "points" [] "bob" 1) Fixture.lobby None).
  { apply house_passes_checks; try reflexivity. discriminate. }
  split; [exact Hpass|].
  rewrite (runCommand_charges_nothing (Fixture.house false true)
             (Fixture.chat "points" [] "bob" 1) (Fixture.chat "points" [] "bob" 1)
             (Dispatcher.with_respond (Fixture.chat "points" [] "bob" 1))
             Fixture.lobby
             (Dispatcher.send (Dispatcher.Say "bob" "done") Fixture.lobby)
             None Hpass eq_refl eq_refl (or_introl eq_refl)).
  vm_compute. reflexivity.
Defined.

(** X18: with cooldowns switched off, the cooldown lookup is never
    consulted: the dispatch is the same whatever [isOnCooldown] would
    answer. *)
Theorem runCommand_cooldowns_off_skips_lookup
    (E : Dispatcher.Engine) (event : Dispatcher.Event) (w : Dispatcher.World)
    (f : Dispatcher.World -> string -> string -> option string -> jsval)
    (Hoff : Dispatcher.getExtConfig E w "cooldown" "enabled" true = false) :
  Dispatcher.runCommand (Engines.with_isOnCooldown f E) event w
  = Dispatcher.runCommand E event w.
Proof.
  unfold Dispatcher.runCommand.
  change (Dispatcher.resolve (Engines.with_isOnCooldown f E) w event)
    with (Dispatcher.resolve E w event).
  destruct (Dispatcher.resolve E w event) as [s ev1]. simpl.
  destruct (Dispatcher.exists_ E w (Dispatcher.command event) None); [|reflexivity].
  destruct (Dispatcher.isEnabled E w (Dispatcher.command event) s); [|reflexivity].
  simpl. unfold Dispatcher.cool. simpl. rewrite Hoff. reflexivity.
Qed.

(** With cooldowns off, [slow] runs although its lookup answers 7. *)
Lemma runCommand_cooldowns_off_skips_lookup_witness :
  let event := Fixture.chat "slow" [] "alice" 1 in
  Dispatcher.getExtConfig (Fixture.house true false) Fixture.lobby "cooldown" "enabled" true
  = false
  /\ Dispatcher.runCommand (Fixture.house true false) event Fixture.lobby
     = Dispatcher.runCommand
         (Engines.with_isOnCooldown (fun _ _ _ _ => JBool false) (Fixture.house true false))
         event Fixture.lobby.
Proof.
  cbv zeta. split; [reflexivity|].
  symmetry. apply runCommand_cooldowns_off_skips_lookup. reflexivity.
Defined.

(** X19: for a custom command no handler is looked up or called: the
    dispatch is the same whatever the handlers would do.  When the checks
    are passed and the stored response renders, the rendered text is said
    to the sender and the dispatch commits like any other. *)
Theorem runCommand_custom_never_calls_handler
    (E : Dispatcher.Engine) (event ev1 : Dispatcher.Event) (w : Dispatcher.World)
    (s : option string) (text : string)
    (g : string -> Dispatcher.Event -> Dispatcher.World -> Dispatcher.handled)
    (Hpass : Engines.passes_checks E event ev1 w s)
    (Hcustom : Dispatcher.isCustom E w (Dispatcher.command event) = true)
    (Hrender : Dispatcher.params E (Dispatcher.with_respond ev1)
                 (Store.get (Dispatcher.db w) "commands" "response"
                    [("name", JStr (Dispatcher.command event)); ("module", JStr "custom")])
               = Ok text) :
  let r := Dispatcher.runCommand E event w in
  Dispatcher.runCommand (Engines.with_runner g E) event w = r
  /\ r.2 = Resolved
  /\ Dispatcher.outbox r.1
     = Dispatcher.Say (Dispatcher.sender event) text :: Dispatcher.outbox w
  /\ Dispatcher.emitted r.1
     = ("command:" +:+ Dispatcher.command event +:+ Dispatcher.suffix ":" s,
        Dispatcher.with_respond ev1) :: Dispatcher.emitted w.
Proof.
  cbv zeta.
  assert (Hpass' : Engines.passes_checks (Engines.with_runner g E) event ev1 w s)
    by exact Hpass.
  rewrite (runCommand_reaches_execute (Engines.with_runner g E) w event ev1 s Hpass').
  rewrite (runCommand_reaches_execute E w event ev1 s Hpass).
  destruct Hpass as (Hres & _).
  destruct (resolve_keeps E w event ev1 s Hres) as (Hc & Hu & _).
  rewrite (execute_custom (Engines.with_runner g E)) by (rewrite Hc; exact Hcustom).
  rewrite (execute_custom E) by (rewrite Hc; exact Hcustom).
  split; [reflexivity|].
  rewrite Hc, Hrender. cbn [fst snd]. split; [reflexivity|].
  change (Dispatcher.sender (Dispatcher.with_respond ev1)) with (Dispatcher.sender ev1).
  rewrite Hu.
  match goal with
  | |- context [Dispatcher.commit ?ce ?pe ?ch ?c ?u ?s' ?ev ?w0] =>
      destruct (commit_fields ce pe ch c u s' ev w0) as (Hemit & Hout & _)
  end.
  rewrite Hemit, Hout. split; reflexivity.
Qed.

Lemma house_custom_passes_checks :
  Engines.passes_checks (Fixture.house true true) (Fixture.chat "hello" [] "bob" 1)
    (Fixture.chat "hello" [] "bob" 1) Fixture.lobby None.
Proof. apply house_passes_checks; reflexivity. Qed.

(** [hello] is custom with the stored response "Join us". *)
Lemma runCommand_custom_never_calls_handler_witness :
  let event := Fixture.chat "hello" [] "bob" 1 in
  let r := Dispatcher.runCommand (Fixture.house true true) event Fixture.lobby in
  Dispatcher.isCustom (Fixture.house true true) Fixture.lobby "hello" = true
  /\ Dispatcher.outbox r.1 = [Dispatcher.Say "bob" "Join us"]
  /\ List.map fst (Dispatcher.emitted r.1) = ["command:hello"].
Proof.
  cbv zeta. split; [reflexivity|].
  destruct (runCommand_custom_never_calls_handler (Fixture.house true true)
              (Fixture.chat "hello" [] "bob" 1) (Fixture.chat "hello" [] "bob" 1)
              Fixture.lobby None "Join us"
              (fun _ ev w0 => Dispatcher.Threw ev w0 "never")
              house_custom_passes_checks eq_refl ltac:(vm_compute; reflexivity))
    as (_ & _ & Hout & Hemit).
  rewrite Hout, Hemit. split; reflexivity.
Defined.

(** X20: when rendering the stored response of a custom command throws,
    the error is not caught: [runCommand] rejects with it, and nothing is
    said, charged, started or emitted. *)
Theorem runCommand_custom_render_failure_propagates
    (E : Dispatcher.Engine) (event ev1 : Dispatcher.Event) (w : Dispatcher.World)
    (s : option string) (err : string)
    (Hpass : Engines.passes_checks E event ev1 w s)
    (Hcustom : Dispatcher.isCustom E w (Dispatcher.command event) = true)
    (Hrender : Dispatcher.params E (Dispatcher.with_respond ev1)
                 (Store.get (Dispatcher.db w) "commands" "response"
                    [("name", JStr (Dispatcher.command event)); ("module", JStr "custom")])
               = Throw err) :
  Dispatcher.runCommand E event w = (w, Rejected err).
Proof.
  rewrite (runCommand_reaches_execute E w event ev1 s Hpass).
  destruct Hpass as (Hres & _).
  destruct (resolve_keeps E w event ev1 s Hres) as (Hc & _).
  rewrite (execute_custom E) by (rewrite Hc; exact Hcustom).
  rewrite Hc, Hrender. reflexivity.
Qed.

(** A custom command whose row is gone: the response read is null. *)
Lemma runCommand_custom_render_failure_propagates_witness :
  let w := Dispatcher.set_db ∅ Fixture.lobby in
  let event := Fixture.chat "hello" [] "bob" 1 in
  Engines.passes_checks (Fixture.house false true) event event w None
  /\ Dispatcher.runCommand (Fixture.house false true) event w
     = (w, Rejected "TypeError: template is not a string").
Proof.
  cbv zeta.
  assert (Hpass : Engines.passes_checks (Fixture.house false true)
                    (Fixture.chat "hello" [] "bob" 1) (Fixture.chat "hello" [] "bob" 1)
                    (Dispatcher.set_db ∅ Fixture.lobby) None).
  { unfold Engines.passes_checks. simpl.
    repeat split; try reflexivity; try lia; discriminate. }
  split; [exact Hpass|].
  apply (runCommand_custom_render_failure_propagates (Fixture.house false true)
           (Fixture.chat "hello" [] "bob" 1) (Fixture.chat "hello" [] "bob" 1)
           (Dispatcher.set_db ∅ Fixture.lobby) None _ Hpass eq_refl).
  reflexivity.
Defined.

(** ** Subcommand resolution *)

Lemma toLowerCase_truthy (q : string) :
  truthy (JStr q) = true -> truthy (JStr (toLowerCase q)) = true.
Proof. destruct q; [discriminate|reflexivity]. Qed.

(** X21: when [runCommand] resolves a subcommand, it is the first
    argument in lower case, that argument is not empty, the registry
    knows it as a subcommand of the command, and the event gains
    [subcommand], [subArgs] (the arguments after the first) and
    [subArgString] (those joined by single spaces), while [args] keeps
    the first argument. *)
Theorem resolve_subcommand_is_lowercased_first_argument
    (E : Dispatcher.Engine) (w : Dispatcher.World) (event ev1 : Dispatcher.Event)
    (s : string)
    (Hres : Dispatcher.resolve E w event = (Some s, ev1)) :
  exists query rest,
    Dispatcher.args event = query :: rest
    /\ query <> ""
    /\ s = toLowerCase query
    /\ Dispatcher.exists_ E w (Dispatcher.command event) (Some s) = true
    /\ Dispatcher.subcommand ev1 = Some s
    /\ Dispatcher.subArgs ev1 = Some rest
    /\ Dispatcher.subArgString ev1 = Some (String.concat " " rest)
    /\ Dispatcher.args ev1 = Dispatcher.args event.
Proof.
  unfold Dispatcher.resolve, Dispatcher.getSubcommand in Hres.
  destruct (Dispatcher.args event) as [|query rest] eqn:Hargs; [discriminate|].
  destruct (truthy (JStr query)) eqn:Hq; simpl in Hres; [|discriminate].
  destruct (Dispatcher.exists_ E w (Dispatcher.command event) (Some (toLowerCase query)))
    eqn:Hknown; simpl in Hres; [|discriminate].
  pose proof (toLowerCase_truthy query Hq) as Hlow. simpl in Hlow. rewrite Hlow in Hres.
  injection Hres as <- <-.
  exists query, rest. repeat split; try assumption.
  intros ->. discriminate.
Qed.

Lemma resolve_subcommand_is_lowercased_first_argument_witness :
  let event := Fixture.chat "points" ["Add"; "bob"; "5"] "alice" 1 in
  exists ev1,
    Dispatcher.resolve (Fixture.house true true) Fixture.lobby event = (Some "add", ev1)
    /\ Dispatcher.subArgString ev1 = Some "bob 5".
Proof.
  cbv zeta.
  assert (Hres : Dispatcher.resolve (Fixture.house true true) Fixture.lobby
                   (Fixture.chat "points" ["Add"; "bob"; "5"] "alice" 1)
                 = (Some "add",
                    (Dispatcher.resolve (Fixture.house true true) Fixture.lobby
                       (Fixture.chat "points" ["Add"; "bob"; "5"] "alice" 1)).2))
    by reflexivity.
  eexists. split; [exact Hres|].
  destruct (resolve_subcommand_is_lowercased_first_argument _ _ _ _ _ Hres)
    as (query & rest & Hargs & _ & _ & _ & _ & _ & Hjoin & _).
  injection Hargs as <- <-. exact Hjoin.
Defined.

(** X22: when there is no first argument, or it is empty, or its lower
    case is no subcommand of the command, no subcommand is resolved and
    the event is passed on unchanged. *)
Theorem resolve_without_subcommand_keeps_event
    (E : Dispatcher.Engine) (w : Dispatcher.World) (event : Dispatcher.Event)
    (Hnone : forall query rest,
        Dispatcher.args event = query :: rest ->
        query = ""
        \/ Dispatcher.exists_ E w (Dispatcher.command event) (Some (toLowerCase query))
           = false) :
  Dispatcher.resolve E w event = (None, event).
Proof.
  unfold Dispatcher.resolve, Dispatcher.getSubcommand.
  destruct (Dispatcher.args event) as [|query rest]; [reflexivity|].
  destruct (Hnone query rest eq_refl) as [-> | Hunknown]; [reflexivity|].
  rewrite Hunknown. rewrite orb_true_r. reflexivity.
Qed.

(** [remove] is no subcommand of [points]. *)
Lemma resolve_without_subcommand_keeps_event_witness :
  let event := Fixture.chat "points" ["remove"; "bob"] "alice" 1 in
  Dispatcher.resolve (Fixture.house true true) Fixture.lobby event = (None, event).
Proof.
  cbv zeta. apply resolve_without_subcommand_keeps_event.
  intros query rest Hargs. injection Hargs as <- <-. right. reflexivity.
Defined.

(** ** The event bus: duplicates, other listeners, call order *)

Section BusMore.

Import Emitter.

Lemma listeners_super_on_elsewhere (b : bus) (channel other : string) (fn : nat) :
  other <> channel ->
  listeners (super_on b channel fn) other = listeners b other.
Proof.
  intros Hne. unfold listeners, super_on.
  rewrite lookup_insert_ne by congruence. reflexivity.
Qed.

Lemma listeners_off_elsewhere (b : bus) (channel other : string) (fn : nat) :
  other <> channel ->
  listeners (off b channel fn) other = listeners b other.
Proof.
  intros Hne. unfold listeners, off.
  rewrite lookup_alter_ne by congruence. reflexivity.
Qed.

Lemma listeners_on_any (b : bus) (channel : string) (fn : nat) (single : option bool) :
  listeners (on b channel fn single) channel
  = ((if default true single then remove_first fn (listeners b channel)
      else listeners b channel) ++ [fn])%list.
Proof.
  unfold on. rewrite listeners_super_on.
  destruct (default true single); [rewrite listeners_off|]; reflexivity.
Qed.

Lemma filter_remove_first (fn : nat) (l : list nat) :
  List.filter (fun x => negb (Nat.eqb x fn)) (remove_first fn l)
  = List.filter (fun x => negb (Nat.eqb x fn)) l.
Proof.
  induction l as [|x l IH]; [reflexivity|]. simpl.
  destruct (Nat.eqb x fn) eqn:Hx; simpl; [reflexivity|].
  rewrite Hx. simpl. rewrite IH. reflexivity.
Qed.

End BusMore.

(** X23: [on] with [single] given as false does not look for an earlier
    registration: every such call adds one more call per emission. *)
Theorem on_not_single_keeps_duplicates (b : bus) (channel : string) (fn : nat) :
  Emitter.calls (Emitter.on b channel fn (Some false)) channel fn
  = S (Emitter.calls b channel fn)
  /\ Emitter.calls
       (Emitter.on (Emitter.on b channel fn (Some false)) channel fn (Some false))
       channel fn
     = S (S (Emitter.calls b channel fn)).
Proof.
  unfold Emitter.calls, Emitter.emit.
  rewrite !listeners_on_any. simpl. rewrite !count_occ_app. simpl.
  destruct (Nat.eq_dec fn fn); [|contradiction]. split; lia.
Qed.

(** X24: [on] adds and takes off registrations of its own listener
    only: under every name, the channel of the call or another, the
    other listeners are registered as before and in the same order. *)
Theorem on_keeps_other_listeners_registered (b : bus) (channel name : string) (fn : nat)
    (single : option bool) :
  List.filter (fun x => negb (Nat.eqb x fn))
    (Emitter.listeners (Emitter.on b channel fn single) name)
  = List.filter (fun x => negb (Nat.eqb x fn)) (Emitter.listeners b name).
Proof.
  destruct (String.eqb_spec name channel) as [->|Hother].
  - rewrite listeners_on_any, List.filter_app. simpl.
    rewrite Nat.eqb_refl. simpl. rewrite app_nil_r.
    destruct (default true single); [apply filter_remove_first|reflexivity].
  - unfold Emitter.on. rewrite listeners_super_on_elsewhere by exact Hother.
    destruct (default true single); [|reflexivity].
    rewrite listeners_off_elsewhere by exact Hother. reflexivity.
Qed.

(** ** The earlier engine: when a handler runs *)

Lemma legacy_registered (B : Legacy.Backing) (c : string) (m : string * string) :
  Legacy.registry B !! c = Some m ->
  negb (bool_decide (is_Some (Legacy.registry B !! c))) = false.
Proof.
  intros Hreg. rewrite bool_decide_eq_true_2; [reflexivity|]. rewrite Hreg. eauto.
Qed.

(** X26: the earlier [runCommand] calls the handler of a registered
    command unless the stored status is a truthy value other than the
    text true, or the boolean false.  A command whose status was never
    stored (null) is therefore run, and a stored status such as the text
    yes keeps it from running; either way [getCommandStatus] logs its
    finding first. *)
Theorem legacy_runCommand_status_gate
    (B : Legacy.Backing) (event : Legacy.LEvent) (w : Legacy.LWorld) (m : string * string)
    (Hregistered : Legacy.registry B !! Legacy.command event = Some m) :
  let c := Legacy.command event in
  let stored := Legacy.botDB_getValue B "commands" "status" [("name", JStr c)] in
  let disabled := (truthy stored && negb (strict_eq stored (JStr "true")))
                  || strict_eq stored (JBool false) in
  let enabled := truthy stored && strict_eq stored (JStr "true") in
  let seen := Legacy.log
                (Legacy.LoggerAbsurd
                   ("'" +:+ c +:+ "' is "
                    +:+ (if enabled then "enabled" else "disabled") +:+ ".")) w in
  Legacy.runCommand B event w
  = if disabled
    then Legacy.log (Legacy.LoggerBot (c +:+ " is installed but is not enabled.")) seen
    else match Legacy.runner B c event seen with
         | (w', None) => w'
         | (w', Some err) => Legacy.log (Legacy.LoggerError err) w'
         end.
Proof.
  cbv zeta. unfold Legacy.runCommand.
  rewrite (legacy_registered B _ m Hregistered).
  unfold Legacy.isEnabled, Legacy.getCommandStatus.
  destruct (Legacy.botDB_getValue B "commands" "status"
              [("name", JStr (Legacy.command event))]) as [| |[|]|z|t];
    cbn [truthy strict_eq]; try reflexivity.
  - destruct z; reflexivity.
  - destruct (String.eqb_spec t "") as [->|Hne]; [reflexivity|].
    cbn [negb andb]. destruct (String.eqb t "true"); reflexivity.
Qed.

(** [fresh] has no stored status and is run; [closed] is stored with the
    text false and is not. *)
Lemma legacy_runCommand_status_gate_witness :
  Legacy.registry Fixture.cellar !! "fresh" = Some ("games", "fresh")
  /\ Legacy.botDB_getValue Fixture.cellar "commands" "status" [("name", JStr "fresh")]
     = JNull
  /\ Legacy.effects (Legacy.runCommand Fixture.cellar (Fixture.call "fresh")
                       Fixture.silence) = ["fresh"]
  /\ Legacy.effects (Legacy.runCommand Fixture.cellar (Fixture.call "closed")
                       Fixture.silence) = [].
Proof.
  assert (Hfresh : Legacy.registry Fixture.cellar !! "fresh" = Some ("games", "fresh"))
    by (vm_compute; reflexivity).
  assert (Hclosed : Legacy.registry Fixture.cellar !! "closed" = Some ("games", "closed"))
    by (vm_compute; reflexivity).
  split; [exact Hfresh|]. split; [reflexivity|]. split.
  - rewrite (legacy_runCommand_status_gate Fixture.cellar (Fixture.call "fresh")
               Fixture.silence _ Hfresh). reflexivity.
  - rewrite (legacy_runCommand_status_gate Fixture.cellar (Fixture.call "closed")
               Fixture.silence _ Hclosed). reflexivity.
Defined.

(** X27: when the handler of a registered command whose stored status is
    the text true throws, the earlier [runCommand] returns normally: it
    adds one error line, after the status line, to the world the handler
    left, and what the handler did before throwing stays done. *)
Theorem legacy_runCommand_logs_handler_error
    (B : Legacy.Backing) (event : Legacy.LEvent) (w w' : Legacy.LWorld)
    (m : string * string) (err : string)
    (Hregistered : Legacy.registry B !! Legacy.command event = Some m)
    (Hstatus : Legacy.botDB_getValue B "commands" "status"
                 [("name", JStr (Legacy.command event))] = JStr "true")
    (Hthrow : Legacy.runner B (Legacy.command event) event
                (Legacy.log
                   (Legacy.LoggerAbsurd ("'" +:+ Legacy.command event +:+ "' is enabled."))
                   w)
              = (w', Some err)) :
  Legacy.runCommand B event w = Legacy.log (Legacy.LoggerError err) w'
  /\ Legacy.effects (Legacy.runCommand B event w) = Legacy.effects w'.
Proof.
  unfold Legacy.runCommand.
  rewrite (legacy_registered B _ m Hregistered).
  unfold Legacy.isEnabled, Legacy.getCommandStatus. rewrite Hstatus. simpl.
  match goal with
  | |- context [Legacy.runner B ?c ?e ?w0] =>
      change (Legacy.runner B c e w0)
        with (Legacy.runner B (Legacy.command event) event
                (Legacy.log
                   (Legacy.LoggerAbsurd
                      ("'" +:+ Legacy.command event +:+ "' is enabled.")) w))
  end.
  rewrite Hthrow. split; reflexivity.
Qed.

Lemma legacy_runCommand_logs_handler_error_witness :
  Legacy.registry Fixture.cellar !! "boom" = Some ("games", "boom")
  /\ Legacy.logs (Legacy.runCommand Fixture.cellar (Fixture.call "boom") Fixture.silence)
     = [Legacy.LoggerError "boom went off"; Legacy.LoggerAbsurd "'boom' is enabled."]
  /\ Legacy.effects (Legacy.runCommand Fixture.cellar (Fixture.call "boom")
                       Fixture.silence) = ["boom"].
Proof.
  assert (Hreg : Legacy.registry Fixture.cellar !! "boom" = Some ("games", "boom"))
    by (vm_compute; reflexivity).
  split; [exact Hreg|].
  destruct (legacy_runCommand_logs_handler_error Fixture.cellar (Fixture.call "boom")
              Fixture.silence
              {| Legacy.logs := [Legacy.LoggerAbsurd "'boom' is enabled."];
                 Legacy.effects := ["boom"] |}
              _ "boom went off" Hreg eq_refl eq_refl) as [Hr Heff].
  rewrite Hr. split; reflexivity.
Defined.

(** ** Settings and chat output of the earlier engine *)

Lemma setting_get_missing (R : Db.Reader) (key : string) :
  Db.getValue R "settings" "value" [("key", JStr key)] = JNull
  \/ Db.getValue R "settings" "value" [("key", JStr key)] = JUndef ->
  exists e, Db.setting_get R key = Throw e.
Proof.
  intros [Hs | Hs]; unfold Db.setting_get; rewrite Hs; eexists; reflexivity.
Qed.

Lemma setting_get_flag (R : Db.Reader) (key : string) (b : bool) :
  Db.isNumeric R (JBool b) = false ->
  Db.getValue R "settings" "value" [("key", JStr key)]
  = JStr (if b then "true" else "false") ->
  Db.setting_get R key = Ok (Db.Val (JBool b)).
Proof.
  intros Hbool Hs. unfold Db.setting_get. rewrite Hs.
  destruct b; simpl; rewrite Hbool; reflexivity.
Qed.

Lemma setting_get_falsy (R : Db.Reader) (key : string) :
  truthy (Db.getValue R "settings" "value" [("key", JStr key)]) = false ->
  Db.getValue R "settings" "value" [("key", JStr key)] <> JNull ->
  Db.getValue R "settings" "value" [("key", JStr key)] <> JUndef ->
  Db.setting_get R key = Ok (Db.Val JUndef).
Proof.
  intros Hfalsy Hnull Hundef. unfold Db.setting_get.
  destruct (Db.getValue R "settings" "value" [("key", JStr key)]);
    try contradiction; rewrite Hfalsy; reflexivity.
Qed.

(** Whatever is stored, [setting.get] answers the boolean false only for
    the text false. *)
Lemma setting_get_false_only_for_text (R : Db.Reader) (key : string) :
  (forall b, Db.isNumeric R (JBool b) = false) ->
  Db.setting_get R key = Ok (Db.Val (JBool false)) ->
  Db.getValue R "settings" "value" [("key", JStr key)] = JStr "false".
Proof.
  intros Hbool. unfold Db.setting_get.
  destruct (Db.getValue R "settings" "value" [("key", JStr key)]) as [| |b|z|t];
    try discriminate.
  - destruct b; simpl; [rewrite Hbool|]; discriminate.
  - destruct (truthy (JNum z)); [|discriminate]. cbn [strict_eq orb].
    destruct (Db.isNumeric R (JNum z)); simpl; discriminate.
  - destruct (truthy (JStr t)); [|discriminate]. cbn [strict_eq].
    destruct (String.eqb_spec t "true") as [->|Htrue].
    + simpl. rewrite Hbool. discriminate.
    + destruct (String.eqb_spec t "false") as [->|Hfalse]; [reflexivity|].
      cbn [orb]. destruct (Db.isNumeric R (JStr t)); [|discriminate].
      destruct (parseInt (JStr t)); discriminate.
Qed.

(** X28: [bot.setting.get] turns the stored texts true and false into
    booleans and a stored numeric text into the number [parseInt] reads;
    it answers undefined for a stored falsy value (the empty text, 0,
    false), and it throws, rather than answer undefined, when the key has
    no value (null or undefined). *)
Theorem setting_get_normalises (R : Db.Reader) (key : string)
    (Hbool : forall b, Db.isNumeric R (JBool b) = false) :
  let stored := Db.getValue R "settings" "value" [("key", JStr key)] in
  (stored = JNull \/ stored = JUndef -> exists e, Db.setting_get R key = Throw e)
  /\ (forall b : bool, stored = JStr (if b then "true" else "false") ->
      Db.setting_get R key = Ok (Db.Val (JBool b)))
  /\ (truthy stored = false -> stored <> JNull -> stored <> JUndef ->
      Db.setting_get R key = Ok (Db.Val JUndef))
  /\ (forall t n, stored = JStr t -> t <> "" -> t <> "true" -> t <> "false" ->
      Db.isNumeric R (JStr t) = true -> parseInt (JStr t) = Some n ->
      Db.setting_get R key = Ok (Db.Val (JNum n))).
Proof.
  cbv zeta. split; [apply setting_get_missing|].
  split; [intros b; apply setting_get_flag; apply Hbool|].
  split; [apply setting_get_falsy|].
  intros t n Hs Hne Htrue Hfalse Hnum Hparse. unfold Db.setting_get. rewrite Hs.
  cbn [truthy strict_eq].
  destruct (String.eqb_spec t ""); [contradiction|].
  destruct (String.eqb_spec t "true"); [contradiction|].
  destruct (String.eqb_spec t "false"); [contradiction|].
  cbn [negb orb]. rewrite Hnum, Hparse. reflexivity.
Qed.

Lemma setting_get_normalises_witness :
  (forall b, Db.isNumeric (Fixture.reader (JStr "false")) (JBool b) = false)
  /\ Db.setting_get (Fixture.reader (JStr "false")) "whisperMode"
     = Ok (Db.Val (JBool false))
  /\ Db.setting_get (Fixture.reader (JStr "false")) "defaultCooldown"
     = Ok (Db.Val (JNum 30))
  /\ exists e, Db.setting_get (Fixture.reader (JStr "false")) "prefix" = Throw e.
Proof.
  assert (Hbool : forall b, Db.isNumeric (Fixture.reader (JStr "false")) (JBool b) = false)
    by (intros b; reflexivity).
  split; [exact Hbool|].
  destruct (setting_get_normalises (Fixture.reader (JStr "false")) "whisperMode" Hbool)
    as (_ & Hflag & _).
  destruct (setting_get_normalises (Fixture.reader (JStr "false")) "defaultCooldown" Hbool)
    as (_ & _ & _ & Hnum).
  destruct (setting_get_normalises (Fixture.reader (JStr "false")) "prefix" Hbool)
    as (Hmiss & _).
  split; [apply (Hflag false); reflexivity|].
  split; [apply (Hnum "30" 30); try reflexivity; discriminate|].
  apply Hmiss. left. reflexivity.
Defined.

(** X29: [core.say] with one argument speaks in the channel without
    reading any setting.  With a user and a message it speaks in the
    channel only when [whisperMode] is stored as the text false; for every
    other stored value, a stored boolean false, 0 or empty text included,
    it whispers to the user, and when the setting has no value it throws
    and sends nothing. *)
Theorem say_whispers_unless_mode_is_text_false
    (R : Db.Reader) (channelName user message : string)
    (Hbool : forall b, Db.isNumeric R (JBool b) = false) :
  let stored := Db.getValue R "settings" "value" [("key", JStr "whisperMode")] in
  Chat.say R channelName user None = Ok (Chat.ToChannel channelName user)
  /\ (stored = JStr "false" ->
      Chat.say R channelName user (Some message) = Ok (Chat.ToChannel channelName message))
  /\ (stored <> JStr "false" -> stored <> JNull -> stored <> JUndef ->
      Chat.say R channelName user (Some message) = Ok (Chat.ToUser user message))
  /\ (stored = JNull \/ stored = JUndef ->
      exists e, Chat.say R channelName user (Some message) = Throw e).
Proof.
  cbv zeta. split; [reflexivity|]. split; [|split].
  - intros Hs. unfold Chat.say, Chat.settings_get.
    rewrite (setting_get_flag R "whisperMode" false (Hbool false) Hs). reflexivity.
  - intros Hfalse Hnull Hundef. unfold Chat.say, Chat.settings_get.
    destruct (Db.setting_get R "whisperMode") as [mode|e] eqn:Hget.
    + destruct mode as [[| |[|]| |]|]; try reflexivity.
      exfalso. apply Hfalse.
      apply (setting_get_false_only_for_text R "whisperMode" Hbool Hget).
    + exfalso. unfold Db.setting_get in Hget.
      destruct (Db.getValue R "settings" "value" [("key", JStr "whisperMode")])
        as [| |b|z|t]; try contradiction.
      * destruct (truthy (JBool b)); [|discriminate].
        destruct (Db.isNumeric R _); discriminate.
      * destruct (truthy (JNum z)); [|discriminate].
        destruct (Db.isNumeric R _); discriminate.
      * destruct (truthy (JStr t)); [|discriminate].
        destruct (Db.isNumeric R _); discriminate.
  - intros Hs. unfold Chat.say, Chat.settings_get.
    destruct (setting_get_missing R "whisperMode" Hs) as [e He].
    rewrite He. exists e. reflexivity.
Qed.

Lemma say_whispers_unless_mode_is_text_false_witness :
  (forall b, Db.isNumeric (Fixture.reader (JBool false)) (JBool b) = false)
  /\ Chat.say (Fixture.reader (JStr "false")) "#home" "alice" (Some "hi")
     = Ok (Chat.ToChannel "#home" "hi")
  /\ Chat.say (Fixture.reader (JBool false)) "#home" "alice" (Some "hi")
     = Ok (Chat.ToUser "alice" "hi").
Proof.
  assert (Hbool : forall w b, Db.isNumeric (Fixture.reader w) (JBool b) = false)
    by (intros w b; reflexivity).
  split; [exact (Hbool (JBool false))|].
  destruct (say_whispers_unless_mode_is_text_false (Fixture.reader (JStr "false"))
              "#home" "alice" "hi" (Hbool _)) as (_ & Hchannel & _).
  destruct (say_whispers_unless_mode_is_text_false (Fixture.reader (JBool false))
              "#home" "alice" "hi" (Hbool _)) as (_ & _ & Hwhisper & _).
  split; [apply Hchannel; reflexivity|].
  apply Hwhisper; discriminate.
Defined.

(** ** The column list of [addTable] *)

Lemma columns_names (unique : bool) (names : list string) (rest : list Db.key) :
  Db.columns unique (List.map Db.Name names ++ rest)
  = (List.map (fun s => s +:+ " TEXT") names ++ Db.columns unique rest)%list.
Proof.
  induction names as [|s names IH]; [reflexivity|].
  simpl. rewrite IH. reflexivity.
Qed.

Lemma columns_after_first_object (rest : list Db.key) :
  Db.columns true rest = List.map (fun k => Db.show_key k +:+ " TEXT") rest.
Proof.
  induction rest as [|k rest IH]; [reflexivity|].
  destruct k; simpl; rewrite IH; reflexivity.
Qed.

(** X30: [addTable] gives every argument one column, in order.  Names
    come out as TEXT columns; the first object is rendered from its name,
    its type (TEXT when it has none) and UNIQUE when it has that
    property; every object after the first is not read at all and comes
    out as the column "[object Object] TEXT".  The statement goes to the
    bot store exactly when [bot] is truthy. *)
Theorem addTable_reads_only_the_first_object
    (name : string) (bot : jsval) (names : list string) (c : Db.column)
    (rest : list Db.key) :
  Db.columns false (List.map Db.Name names)
  = List.map (fun s => s +:+ " TEXT") names
  /\ Db.columns false (List.map Db.Name names ++ Db.Object c :: rest)
     = (List.map (fun s => s +:+ " TEXT") names
        ++ Db.render c :: List.map (fun k => Db.show_key k +:+ " TEXT") rest)%list
  /\ Db.addTable name bot (List.map Db.Name names ++ Db.Object c :: rest)
     = (if truthy bot then Db.BotDb else Db.MainDb,
        "CREATE TABLE IF NOT EXISTS " +:+ name +:+ " ("
        +:+ String.concat ", "
              (List.map (fun s => s +:+ " TEXT") names
               ++ Db.render c :: List.map (fun k => Db.show_key k +:+ " TEXT") rest)
        +:+ ");").
Proof.
  assert (Hfirst : Db.columns false (List.map Db.Name names ++ Db.Object c :: rest)
                   = (List.map (fun s => s +:+ " TEXT") names
                      ++ Db.render c
                         :: List.map (fun k => Db.show_key k +:+ " TEXT") rest)%list).
  { rewrite columns_names. simpl. rewrite columns_after_first_object. reflexivity. }
  split; [|split].
  - rewrite <- (app_nil_r (List.map Db.Name names)), columns_names. simpl.
    rewrite app_nil_r. reflexivity.
  - exact Hfirst.
  - unfold Db.addTable. rewrite Hfirst. destruct (truthy bot); reflexivity.
Qed.

(** The [users] table as [initialize] of the earlier engine creates it,
    and what a second object would become. *)
Example addTable_users :
  Db.addTable "users" (JBool true)
    [Db.Object {| Db.col_name := JStr "name"; Db.col_type := None; Db.col_unique := true |};
     Db.Name "permission"; Db.Name "mod"; Db.Name "following"; Db.Name "seen"]
  = (Db.BotDb,
     "CREATE TABLE IF NOT EXISTS users (name TEXT UNIQUE, permission TEXT, mod TEXT, following TEXT, seen TEXT);")
  /\ Db.columns false
       [Db.Object {| Db.col_name := JStr "id"; Db.col_type := Some (JStr "INT");
                     Db.col_unique := true |};
        Db.Object {| Db.col_name := JStr "age"; Db.col_type := Some (JStr "INT");
                     Db.col_unique := false |}]
     = ["id INT UNIQUE"; "[object Object] TEXT"].
Proof. split; reflexivity. Qed.

(** ** Handlers written as [async] functions *)

Lemma execute_handler_promises (E : Dispatcher.Engine) (ce pe : bool) (charge : jsval)
    (s : option string) (ev ev' : Dispatcher.Event) (w w' : Dispatcher.World)
    (outcome : completion) :
  Dispatcher.isCustom E w (Dispatcher.command ev) = false ->
  Dispatcher.runner E (Dispatcher.command ev) (Dispatcher.with_respond ev) w
  = Dispatcher.Promised ev' w' outcome ->
  Dispatcher.execute E ce pe charge s ev w
  = (Dispatcher.commit ce pe charge (Dispatcher.command ev) (Dispatcher.sender ev) s ev' w',
     Resolved).
Proof.
  intros Hcode Hcall. unfold Dispatcher.execute. rewrite Hcode, Hcall. reflexivity.
Qed.

(** The call of an [async] handler returns a promise, and [runCommand]
    goes on to commit without a look at it: however the promise settles,
    and so also when the handler throws, the dispatch resolves with the
    cooldown started, the charge debited and the command event emitted,
    and logs no error. *)
Lemma runCommand_promise_is_not_awaited
    (E : Dispatcher.Engine) (event ev1 ev' : Dispatcher.Event) (w w' : Dispatcher.World)
    (s : option string) (outcome : completion) :
  Engines.passes_checks E event ev1 w s ->
  Dispatcher.isCustom E w (Dispatcher.command event) = false ->
  Dispatcher.runner E (Dispatcher.command event) (Dispatcher.with_respond ev1) w
  = Dispatcher.Promised ev' w' outcome ->
  Dispatcher.runCommand E event w
  = (Dispatcher.commit (Dispatcher.getExtConfig E w "cooldown" "enabled" true)
       (Dispatcher.getExtConfig E w "points" "enabled" true)
       (Engines.charge_of E event w s) (Dispatcher.command event)
       (Dispatcher.sender event) s ev' w',
     Resolved).
Proof.
  intros Hpass Hcode Hcall. rewrite (runCommand_reaches_execute E w event ev1 s Hpass).
  destruct Hpass as (Hres & _).
  destruct (resolve_keeps E w event ev1 s Hres) as (Hc & Hu & _).
  rewrite (execute_handler_promises E _ _ _ s ev1 ev' w w' outcome)
    by (rewrite ?Hc; assumption).
  rewrite Hc, Hu. reflexivity.
Qed.

(** A handler that throws a value without a message: [e.message] is
    undefined for a thrown text or number, and reading it throws for a
    thrown null or undefined, in which case the error leaves the [catch]
    block and [runCommand] rejects. *)
Lemma execute_handler_throws_value (E : Dispatcher.Engine) (ce pe : bool) (charge : jsval)
    (s : option string) (ev ev' : Dispatcher.Event) (w w' : Dispatcher.World)
    (thrown : jsval) :
  Dispatcher.isCustom E w (Dispatcher.command ev) = false ->
  Dispatcher.runner E (Dispatcher.command ev) (Dispatcher.with_respond ev) w
  = Dispatcher.ThrewValue ev' w' thrown ->
  Dispatcher.execute E ce pe charge s ev w
  = match thrown with
    | JNull | JUndef =>
        (w', Rejected ("TypeError: Cannot read property 'message' of " +:+ show thrown))
    | _ => (Dispatcher.log (Dispatcher.LogError "core" "undefined") w', Resolved)
    end.
Proof.
  intros Hcode Hcall. unfold Dispatcher.execute. rewrite Hcode, Hcall.
  destruct thrown; reflexivity.
Qed.

(** C4: alice (50 points) runs [boom] (price 20), whose handler is an
    [async] function that answers and then throws.  The call returns a
    promise that rejects; nothing is caught or logged, and [runCommand]
    commits all the same: the cooldown is started, alice is debited to
    30 and [command:boom] is emitted. *)
Theorem runCommand_async_handler_throw_still_commits :
  let event := Fixture.chat "boom" [] "alice" 1 in
  let r := Dispatcher.runCommand Fixture.async_house event Fixture.lobby in
  Dispatcher.isCustom Fixture.async_house Fixture.lobby "boom" = false
  /\ Dispatcher.runner Fixture.async_house "boom" (Dispatcher.with_respond event)
       Fixture.lobby
     = Dispatcher.Promised (Dispatcher.with_respond event)
         (Dispatcher.send (Dispatcher.Say "alice" "3, 2, 1...") Fixture.lobby)
         (Rejected "boom went off")
  /\ r.2 = Resolved
  /\ Dispatcher.logs r.1 = []
  /\ Fixture.balance (Dispatcher.db Fixture.lobby) "alice" = JNum 50
  /\ Fixture.balance (Dispatcher.db r.1) "alice" = JNum 30
  /\ List.map Dispatcher.cd_command (Dispatcher.cooldowns r.1) = ["boom"]
  /\ List.map fst (Dispatcher.emitted r.1) = ["command:boom"].
Proof.
  cbv zeta. split; [reflexivity|]. split; [reflexivity|].
  vm_compute. repeat (split; [reflexivity|]). reflexivity.
Qed.
